(** * A TFTP client (server.py): packet layout, download and upload loops

    The client is a Python script with two operations, [get_file] and
    [put_file], that talk to a TFTP server over one UDP socket.  The
    embedding below follows the script line by line:

    - byte strings are [list byte], Python integers are [Z];
    - [struct.pack] is partial (it raises [struct.error] when a value does
      not fit its format), so it returns a [res];
    - the socket is modelled by its observable behaviour: the list of
      [event]s the successive [recvfrom] calls meet (a datagram or a
      timeout) is an input, and every call the script makes on the socket,
      the file object, [os] and [print] is recorded as an [action];
    - the local directory is a finite map from file names to contents. *)

From Stdlib Require Import ZArith Lia.
From Stdlib Require Import Strings.Byte.
From stdpp Require Import gmap strings list fin_maps pretty.

Local Open Scope Z_scope.

(** ** Python values *)

Abbreviation byte := Byte.byte.
Abbreviation bytes := (list byte).

(** [len(x)] *)
Definition len {A} (l : list A) : Z := Z.of_nat (length l).

(** Slices with constant, non-negative bounds: [l[:n]], [l[n:]], [l[a:b]]. *)
Definition slice_to {A} (n : Z) (l : list A) : list A := take (Z.to_nat n) l.
Definition slice_from {A} (n : Z) (l : list A) : list A := drop (Z.to_nat n) l.
Definition slice {A} (a b : Z) (l : list A) : list A :=
  take (Z.to_nat (b - a)) (drop (Z.to_nat a) l).

Definition byte_to_Z (b : byte) : Z := Z.of_N (Byte.to_N b).

Definition byte_of_Z (z : Z) : byte :=
  default Byte.x00 (Byte.of_N (Z.to_N (z mod 256))).

(** [int.from_bytes(bs, 'big')]: total, the empty string gives 0. *)
Definition int_from_bytes_big (bs : bytes) : Z :=
  fold_left (fun acc b => acc * 256 + byte_to_Z b) bs 0.

(** A Python [str] is represented by its UTF-8 encoding, the bytes that
    [str.encode()] returns; a [str] that cannot be encoded (one holding a
    lone surrogate) has no representation. *)
Definition encode (s : string) : bytes := String.list_byte_of_string s.

(** [len(s)] for a [str]: its number of characters.  Each character is
    encoded as one byte that is not of the form 10xxxxxx, followed by up to
    three bytes that are. *)
Definition continuation_byte (b : byte) : bool :=
  (128 <=? byte_to_Z b) && (byte_to_Z b <? 192).

Definition str_len (s : string) : Z :=
  len (List.filter (fun b => negb (continuation_byte b)) (encode s)).

(** ** Exceptions the script can let escape *)

Inductive exn :=
| StructError            (* struct.error: value out of range for its format *)
| KeyError (k : Z)       (* dict lookup of a missing key *)
| OverflowError.         (* sendto: port outside 0..65535 *)

Inductive res (A : Type) :=
| Ok (a : A)
| Raise (e : exn).
Arguments Ok {A} a.
Arguments Raise {A} e.

Definition res_bind {A B} (r : res A) (k : A -> res B) : res B :=
  match r with
  | Ok a => k a
  | Raise e => Raise e
  end.

Notation "x <- r ;; k" := (res_bind r (fun x => k))
  (at level 100, r at next level, right associativity).

(** ** struct.pack, big-endian formats *)

(** ['>h']: a signed 16-bit field; values outside [-32768, 32767] raise. *)
Definition pack_h (v : Z) : res bytes :=
  if (-32768 <=? v) && (v <=? 32767)
  then Ok [byte_of_Z (v mod 65536 / 256); byte_of_Z (v mod 65536)]
  else Raise StructError.

(** ['B']: an unsigned byte. *)
Definition pack_B (v : Z) : res bytes :=
  if (0 <=? v) && (v <=? 255) then Ok [byte_of_Z v] else Raise StructError.

(** ['{n}s']: exactly [n] bytes, truncated or padded with zero bytes. *)
Definition pack_s (n : Z) (s : bytes) : bytes :=
  slice_to n s ++ replicate (Z.to_nat (n - len s)) Byte.x00.

(** ** Constants of the script *)

Definition DEFAULT_PORT : Z := 3333.
Definition BLOCK_SIZE : Z := 512.
Definition DEFAULT_TRANSFER_MODE : string := "octet".

Inductive opname := RRQ | WRQ | DATA | ACK | ERROR.

Definition OPCODE (k : opname) : Z :=
  match k with
  | RRQ => 1
  | WRQ => 2
  | DATA => 3
  | ACK => 4
  | ERROR => 5
  end.

Definition ERROR_CODE : gmap Z string :=
  list_to_map
    [ (0, "Not defined, see error message (if any).");
      (1, "File not found.");
      (2, "Access violation.");
      (3, "Disk full or allocation exceeded.");
      (4, "Illegal TFTP operation.");
      (5, "Unknown transfer ID.");
      (6, "File already exists.");
      (7, "No such user.") ]%string.

(** ** The outside world *)

Definition address : Type := string * Z.

(** What one [sock.recvfrom(516)] call meets. *)
Inductive event :=
| Datagram (payload : bytes) (source : address)
| Timeout.

(** Every effect of the script, in program order. *)
Inductive action :=
| SendTo (data : bytes) (dest : address)
| RecvFrom (data : bytes) (source : address)
| RecvTimeout
| OpenWb (name : string)
| OpenRb (name : string)
| FileWrite (data : bytes)
| FileRead (data : bytes)
| FileClose
| OsRemove (name : string)
| Print (msg : string).

(** How a loop iteration hands control on. *)
Inductive control :=
| Continue
| Break
| SysExit (code : Z)
| Throw (e : exn).

(** How a call of [get_file] or [put_file] ends.  [Blocked] is a call still
    waiting in [recvfrom] when the given events are used up. *)
Inductive outcome :=
| Returned
| Exited (code : Z)
| Uncaught (e : exn)
| Blocked.

(** [sock.recvfrom(516)] hands over at most 516 bytes of the datagram. *)
Definition recvfrom (bufsize : Z) (payload : bytes) : bytes := slice_to bufsize payload.

(** ** Request and acknowledgement packets *)

(** [pack(f'>h{len(filename)}sB{len(mode)}sB', opcode, filename.encode(), 0,
    mode.encode(), 0)], shared by [send_rrq] and [send_wrq].  The fields are
    sized by the number of characters and filled with the encoded bytes. *)
Definition pack_request (opcode : Z) (filename mode : string) : res bytes :=
  op <- pack_h opcode ;;
  z1 <- pack_B 0 ;;
  z2 <- pack_B 0 ;;
  Ok (op ++ pack_s (str_len filename) (encode filename) ++ z1
         ++ pack_s (str_len mode) (encode mode) ++ z2).

Definition send_rrq (filename mode : string) (server_address : address) : res (list action) :=
  rrq_message <- pack_request (OPCODE RRQ) filename mode ;;
  Ok [SendTo rrq_message server_address].

Definition send_wrq (filename mode : string) (server_address : address) : res (list action) :=
  wrq_message <- pack_request (OPCODE WRQ) filename mode ;;
  Ok [SendTo wrq_message server_address].

(** [pack('>hh', OPCODE['ACK'], block_num)] *)
Definition pack_ack (block_num : Z) : res bytes :=
  op <- pack_h (OPCODE ACK) ;;
  bn <- pack_h block_num ;;
  Ok (op ++ bn).

Definition send_ack (block_num : Z) (server_address : address) : res (list action) :=
  ack_message <- pack_ack block_num ;;
  Ok [SendTo ack_message server_address].

(** ** The local directory *)

(** [open(name, 'wb')]: the file is created, or emptied when it exists. *)
Definition open_wb (name : string) (fs : gmap string bytes) : gmap string bytes :=
  <[name := []]> fs.

(** [file.write(blk)] on the file opened under [name]. *)
Definition file_write (name : string) (blk : bytes) (fs : gmap string bytes) : gmap string bytes :=
  alter (fun c => c ++ blk) name fs.

(** [os.remove(name)] *)
Definition os_remove (name : string) (fs : gmap string bytes) : gmap string bytes :=
  delete name fs.

(** ** Download: get_file *)

Record get_state := GetState {
  expected_block_number : Z;
  get_fs : gmap string bytes
}.

Section get_file.
Variable filename : string.

(** The [opcode == OPCODE['DATA']] branch. *)
Definition get_data (st : get_state) (data : bytes) (server : address)
  : list action * get_state * control :=
  let block_number := int_from_bytes_big (slice 2 4 data) in
  let file_block := slice_from 4 data in
  let '(acts, st1, c) :=
    if block_number =? expected_block_number st then
      let fs1 := file_write filename file_block (get_fs st) in
      match send_ack block_number server with
      | Ok sent =>
          (FileWrite file_block :: sent,
           GetState (expected_block_number st + 1) fs1, Continue)
      | Raise e =>
          ([FileWrite file_block],
           GetState (expected_block_number st) fs1, Throw e)
      end
    else ([], st, Continue) in
  match c with
  | Continue =>
      if len file_block <? BLOCK_SIZE
      then (acts ++ [Print "File transfer completed."], st1, Break)
      else (acts, st1, Continue)
  | _ => (acts, st1, c)
  end.

(** The [opcode == OPCODE['ERROR']] branch. *)
Definition get_error (st : get_state) (data : bytes)
  : list action * get_state * control :=
  let error_code := int_from_bytes_big (slice 2 4 data) in
  match ERROR_CODE !! error_code with
  | Some msg =>
      ([Print ("Error " +:+ pretty error_code +:+ ": " +:+ msg);
        FileClose; OsRemove filename],
       GetState (expected_block_number st) (os_remove filename (get_fs st)),
       Break)
  | None => ([], st, Throw (KeyError error_code))
  end.

(** One turn of the [while True] loop: the [try] body and its
    [except socket.timeout] handler. *)
Definition get_iter (st : get_state) (ev : event)
  : list action * get_state * control :=
  match ev with
  | Datagram payload server =>
      let data := recvfrom 516 payload in
      let opcode := int_from_bytes_big (slice_to 2 data) in
      let '(acts, st1, c) :=
        if opcode =? OPCODE DATA then get_data st data server
        else if opcode =? OPCODE ERROR then get_error st data
        else ([], st, Continue) in
      (RecvFrom data server :: acts, st1, c)
  | Timeout =>
      ([RecvTimeout; Print "Timeout occurred. No response from server.";
        FileClose; OsRemove filename],
       GetState (expected_block_number st) (os_remove filename (get_fs st)),
       SysExit 1)
  end.

(** The loop, run against the events the socket delivers.  [Returned]
    stands for leaving the loop through [break]. *)
Fixpoint get_loop (st : get_state) (events : list event)
  : list action * get_state * outcome :=
  match events with
  | [] => ([], st, Blocked)
  | ev :: events' =>
      let '(acts, st1, c) := get_iter st ev in
      match c with
      | Continue =>
          let '(acts', st2, o) := get_loop st1 events' in
          (acts ++ acts', st2, o)
      | Break => (acts, st1, Returned)
      | SysExit code => (acts, st1, Exited code)
      | Throw e => (acts, st1, Uncaught e)
      end
  end.

Definition get_file (server_address : address) (fs : gmap string bytes)
    (events : list event) : list action * gmap string bytes * outcome :=
  match send_rrq filename DEFAULT_TRANSFER_MODE server_address with
  | Raise e => ([], fs, Uncaught e)
  | Ok sent =>
      let st0 := GetState 1 (open_wb filename fs) in
      let '(acts, st, o) := get_loop st0 events in
      match o with
      | Returned => (sent ++ OpenWb filename :: acts ++ [FileClose], get_fs st, Returned)
      | _ => (sent ++ OpenWb filename :: acts, get_fs st, o)
      end
  end.
End get_file.

(** ** Upload: put_file *)

Record put_state := PutState {
  block_number : Z;
  file_content : bytes;     (* what [open(filename, 'rb')] found *)
  file_pos : Z              (* read cursor of the file object *)
}.

(** [pack(f'>hh{len(file_block)}s', OPCODE['DATA'], block_number + 1, file_block)] *)
Definition pack_data (block_num : Z) (file_block : bytes) : res bytes :=
  op <- pack_h (OPCODE DATA) ;;
  bn <- pack_h block_num ;;
  Ok (op ++ bn ++ pack_s (len file_block) file_block).

(** [file.read(n)] *)
Definition file_read (n : Z) (st : put_state) : bytes :=
  slice (file_pos st) (file_pos st + n) (file_content st).

Section put_file.
Variable filename : string.
Variable server_address : address.

(** First half of a loop turn: read a block, pack it, send it.  The last
    component is the exception raised by [pack], if any. *)
Definition put_send (st : put_state)
  : list action * put_state * bytes * option exn :=
  let file_block := file_read BLOCK_SIZE st in
  let st1 := PutState (block_number st) (file_content st)
                      (file_pos st + len file_block) in
  match pack_data (block_number st + 1) file_block with
  | Ok block_message =>
      ([FileRead file_block; SendTo block_message server_address], st1, file_block, None)
  | Raise e => ([FileRead file_block], st1, file_block, Some e)
  end.

(** The [try] block around [recvfrom] and its timeout handler. *)
Definition put_reply (st : put_state) (ev : event) : list action * put_state :=
  match ev with
  | Datagram payload server =>
      let ack := recvfrom 516 payload in
      let ack_opcode := int_from_bytes_big (slice_to 2 ack) in
      let ack_block_number := int_from_bytes_big (slice 2 4 ack) in
      if (ack_opcode =? OPCODE ACK) && (ack_block_number =? block_number st + 1)
      then ([RecvFrom ack server],
            PutState (block_number st + 1) (file_content st) (file_pos st))
      else ([RecvFrom ack server; Print "Unexpected ACK received. Resending..."], st)
  | Timeout =>
      ([RecvTimeout; Print "Timeout occurred while waiting for ACK. Resending..."], st)
  end.

(** Second half of a loop turn: the reply, then the end-of-file test. *)
Definition put_recv (st : put_state) (file_block : bytes) (ev : event)
  : list action * put_state * control :=
  let '(acts, st1) := put_reply st ev in
  if len file_block <? BLOCK_SIZE
  then (acts ++ [Print "File transfer completed."], st1, Break)
  else (acts, st1, Continue).

Fixpoint put_loop (st : put_state) (events : list event)
  : list action * put_state * outcome :=
  let '(sent, st1, file_block, err) := put_send st in
  match err with
  | Some e => (sent, st1, Uncaught e)
  | None =>
      match events with
      | [] => (sent, st1, Blocked)
      | ev :: events' =>
          let '(acts, st2, c) := put_recv st1 file_block ev in
          match c with
          | Continue =>
              let '(acts', st3, o) := put_loop st2 events' in
              (sent ++ acts ++ acts', st3, o)
          | Break => (sent ++ acts, st2, Returned)
          | SysExit code => (sent ++ acts, st2, Exited code)
          | Throw e => (sent ++ acts, st2, Uncaught e)
          end
      end
  end.

Definition put_file (fs : gmap string bytes) (events : list event)
  : list action * outcome :=
  match fs !! filename with
  | None => ([Print "Error: File does not exist."], Exited 1)
  | Some content =>
      match send_wrq filename DEFAULT_TRANSFER_MODE server_address with
      | Raise e => ([], Uncaught e)
      | Ok sent =>
          let '(acts, _, o) := put_loop (PutState 0 content 0) events in
          match o with
          | Returned => (sent ++ OpenRb filename :: acts ++ [FileClose], Returned)
          | _ => (sent ++ OpenRb filename :: acts, o)
          end
      end
  end.
End put_file.

(** ** Reading a trace *)

(** The block number of an ACK packet handed to [sendto]. *)
Definition sent_ack (a : action) : option Z :=
  match a with
  | SendTo data _ =>
      if int_from_bytes_big (slice_to 2 data) =? OPCODE ACK
      then Some (int_from_bytes_big (slice 2 4 data)) else None
  | _ => None
  end.

(** The block number of a DATA packet handed to [sendto]. *)
Definition sent_data (a : action) : option Z :=
  match a with
  | SendTo data _ =>
      if int_from_bytes_big (slice_to 2 data) =? OPCODE DATA
      then Some (int_from_bytes_big (slice 2 4 data)) else None
  | _ => None
  end.

(** The block number of an ACK packet that [recvfrom] returned. *)
Definition received_ack (a : action) : option Z :=
  match a with
  | RecvFrom data _ =>
      if int_from_bytes_big (slice_to 2 data) =? OPCODE ACK
      then Some (int_from_bytes_big (slice 2 4 data)) else None
  | _ => None
  end.

(** Where a [sendto] went. *)
Definition sent_to (a : action) : option address :=
  match a with
  | SendTo _ dest => Some dest
  | _ => None
  end.

(** ** Packets on the wire, big-endian *)

Definition two_bytes (v : Z) : bytes := [byte_of_Z (v / 256); byte_of_Z v].

Definition REQUEST_packet (op : opname) (filename mode : string) : bytes :=
  two_bytes (OPCODE op)
    ++ pack_s (str_len filename) (encode filename) ++ [Byte.x00]
    ++ pack_s (str_len mode) (encode mode) ++ [Byte.x00].

Definition DATA_packet (n : Z) (payload : bytes) : bytes :=
  two_bytes (OPCODE DATA) ++ two_bytes n ++ payload.

Definition ACK_packet (n : Z) : bytes := two_bytes (OPCODE ACK) ++ two_bytes n.

Definition ERROR_packet (code : Z) (msg : string) : bytes :=
  two_bytes (OPCODE ERROR) ++ two_bytes code ++ encode msg ++ [Byte.x00].

Definition full_block : bytes := replicate 512 Byte.x00.

(** [count] DATA packets numbered [first], [first + 1], ..., each carrying a
    full 512-byte block. *)
Definition full_blocks (first count : Z) (source : address) : list event :=
  (fun n => Datagram (DATA_packet n full_block) source) <$> seqZ first count.

(** The configured server address and the port its replies come from. *)
Definition example_server : address := ("192.0.2.1"%string, DEFAULT_PORT).
Definition example_peer : address := ("192.0.2.1"%string, 50000).

(** ** Properties named in the statements *)

(** The block numbers of the ACKs a trace sends, in order. *)
Definition acks_sent (t : list action) : list Z := omap sent_ack t.

(** An ACK numbered [n] was received before position [i] of the trace. *)
Definition acked_before (t : list action) (i : nat) (n : Z) : Prop :=
  exists j r, (j < i)%nat /\ t !! j = Some r /\ received_ack r = Some n.



(** ** The script body, once [argparse] has read the command line *)

(** [choices=['get', 'put']] *)
Inductive operation := op_get | op_put.

(** [sock.sendto] takes a port from 0 to 65535 and raises [OverflowError]
    for any other.  The host is taken to resolve and the network to take
    the datagram: failures of the operating system are not modelled. *)
Definition sendto_accepts (dest : address) : bool :=
  (0 <=? dest.2) && (dest.2 <=? 65535).

(** Lines 129 to 141.  [port] is the [-p] option, [None] when it is not
    given; the last component tells whether [sock.close()] was reached.
    The address built from the command line is first used by the [sendto]
    of the request, before [get_file] opens the local file and after
    [put_file] has looked for it; an address that [sendto] refuses ends the
    script there. *)
Definition main (host : string) (op : operation) (filename : string)
    (port : option Z) (fs : gmap string bytes) (events : list event)
  : list action * gmap string bytes * outcome * bool :=
  let server_address := (host, default DEFAULT_PORT port) in
  let '(t, fs1, o) :=
    match op with
    | op_get =>
        if sendto_accepts server_address
        then get_file filename server_address fs events
        else ([], fs, Uncaught OverflowError)
    | op_put =>
        if sendto_accepts server_address || negb (bool_decide (is_Some (fs !! filename)))
        then let '(t, o) := put_file filename server_address fs events in (t, fs, o)
        else ([], fs, Uncaught OverflowError)
    end in
  (t, fs1, o, match o with Returned => true | _ => false end).

(** The status the interpreter exits with: 0 at the end of the script, the
    argument of [sys.exit], 1 after an uncaught exception. *)
Definition exit_status (o : outcome) : option Z :=
  match o with
  | Returned => Some 0
  | Exited code => Some code
  | Uncaught _ => Some 1
  | Blocked => None
  end.

(** ** More ways to read a trace *)

(** The blocks handed to [file.write], in order. *)
Definition file_writes (t : list action) : list bytes :=
  omap (fun a => match a with FileWrite d => Some d | _ => None end) t.

(** The payload of a DATA packet handed to [sendto]. *)
Definition sent_payload (a : action) : option bytes :=
  match a with
  | SendTo data _ =>
      if int_from_bytes_big (slice_to 2 data) =? OPCODE DATA
      then Some (slice_from 4 data) else None
  | _ => None
  end.

Definition data_payloads (t : list action) : list bytes := omap sent_payload t.

(** ** Well-behaved servers *)

(** The given blocks as DATA packets numbered [first], [first + 1], ... *)
Fixpoint data_stream (first : Z) (blocks : list bytes) (source : address) : list event :=
  match blocks with
  | [] => []
  | b :: blocks' => Datagram (DATA_packet first b) source :: data_stream (first + 1) blocks' source
  end.

(** ACK packets numbered [first], ..., [first + count - 1]. *)
Definition ack_stream (first count : Z) (source : address) : list event :=
  (fun n => Datagram (ACK_packet n) source) <$> seqZ first count.

(** A list of numbers that starts at [first] and goes on by steps of 0 or 1. *)
Fixpoint slow_count (first : Z) (l : list Z) : Prop :=
  match l with
  | [] => True
  | x :: l' => x = first /\ (slow_count first l' \/ slow_count (first + 1) l')
  end.

(** What the [recvfrom] calls of a trace returned, in order. *)
Definition receptions (t : list action) : list (bytes * address) :=
  omap (fun a => match a with RecvFrom d src => Some (d, src) | _ => None end) t.

(** The datagrams of a sequence of events. *)
Definition datagrams (events : list event) : list (bytes * address) :=
  omap (fun ev => match ev with Datagram d src => Some (d, src) | Timeout => None end)
       events.

(** A file of 32767 full blocks. *)
Definition long_file : bytes := replicate (Z.to_nat (512 * 32767)) Byte.x00.

Arguments recvfrom : simpl never.
Arguments slice_to : simpl never.
Arguments slice_from : simpl never.
Arguments slice : simpl never.

(** * Proofs *)

(** ** Bytes and two-byte fields *)

Lemma byte_to_of_Z z : byte_to_Z (byte_of_Z z) = z mod 256.
Proof.
  unfold byte_to_Z, byte_of_Z.
  assert (Hr : 0 <= z mod 256 < 256) by (apply Z.mod_pos_bound; lia).
  destruct (Byte.of_N (Z.to_N (z mod 256))) as [b|] eqn:E; simpl.
  - apply Byte.to_of_N in E. rewrite E. lia.
  - apply Byte.of_N_None_iff in E. lia.
Qed.

Lemma byte_to_Z_range b : 0 <= byte_to_Z b <= 255.
Proof.
  unfold byte_to_Z. pose proof (Byte.to_N_bounded b). lia.
Qed.

Lemma int_from_bytes_big_two a b :
  int_from_bytes_big [a; b] = byte_to_Z a * 256 + byte_to_Z b.
Proof. reflexivity. Qed.

Lemma int_from_bytes_big_snoc bs b :
  int_from_bytes_big (bs ++ [b]) = int_from_bytes_big bs * 256 + byte_to_Z b.
Proof. unfold int_from_bytes_big. by rewrite fold_left_app. Qed.

Lemma int_from_bytes_big_nonneg bs : 0 <= int_from_bytes_big bs.
Proof.
  induction bs as [|b bs IH] using rev_ind; [done|].
  rewrite int_from_bytes_big_snoc. pose proof (byte_to_Z_range b). lia.
Qed.

Lemma int_from_two_bytes v : 0 <= v < 65536 -> int_from_bytes_big (two_bytes v) = v.
Proof.
  intros Hv. unfold two_bytes.
  rewrite int_from_bytes_big_two, !byte_to_of_Z.
  rewrite (Z.mod_small (v / 256)) by (split; [apply Z.div_pos | apply Z.div_lt_upper_bound]; lia).
  pose proof (Z.div_mod v 256). lia.
Qed.

Lemma pack_h_two_bytes v : 0 <= v <= 32767 -> pack_h v = Ok (two_bytes v).
Proof.
  intros Hv. unfold pack_h, two_bytes.
  destruct (Z.leb_spec (-32768) v), (Z.leb_spec v 32767); try lia. simpl.
  rewrite (Z.mod_small v 65536) by lia. done.
Qed.

Lemma pack_h_raises v : 32767 < v -> pack_h v = Raise StructError.
Proof.
  intros Hv. unfold pack_h.
  destruct (Z.leb_spec v 32767); [lia|]. by rewrite andb_false_r.
Qed.

Lemma pack_h_Ok_range v bs : pack_h v = Ok bs -> -32768 <= v <= 32767.
Proof.
  unfold pack_h.
  destruct (Z.leb_spec (-32768) v), (Z.leb_spec v 32767); simpl; try done; lia.
Qed.

Lemma pack_ack_Ok n : 0 <= n <= 32767 -> pack_ack n = Ok (ACK_packet n).
Proof.
  intros Hn. unfold pack_ack, ACK_packet.
  rewrite (pack_h_two_bytes (OPCODE ACK)) by (simpl; lia).
  rewrite (pack_h_two_bytes n) by lia. done.
Qed.

Lemma pack_ack_raises n : 32767 < n -> pack_ack n = Raise StructError.
Proof.
  intros Hn. unfold pack_ack.
  rewrite (pack_h_two_bytes (OPCODE ACK)) by (simpl; lia).
  by rewrite (pack_h_raises n).
Qed.

Lemma pack_s_exact (s : bytes) : pack_s (len s) s = s.
Proof.
  unfold pack_s, slice_to, len.
  rewrite Z.sub_diag, Nat2Z.id, firstn_all. simpl. by rewrite app_nil_r.
Qed.

Lemma pack_data_Ok n blk : 0 <= n <= 32767 -> pack_data n blk = Ok (DATA_packet n blk).
Proof.
  intros Hn. unfold pack_data, DATA_packet.
  rewrite (pack_h_two_bytes (OPCODE DATA)) by (simpl; lia).
  rewrite (pack_h_two_bytes n) by lia. simpl. by rewrite pack_s_exact.
Qed.

Lemma pack_data_raises n blk : 32767 < n -> pack_data n blk = Raise StructError.
Proof.
  intros Hn. unfold pack_data.
  rewrite (pack_h_two_bytes (OPCODE DATA)) by (simpl; lia).
  by rewrite (pack_h_raises n).
Qed.

(** What the decoders read back from a packet laid out as opcode, number,
    rest. *)
Lemma opcode_of_packet op n (rest : bytes) :
  0 <= op < 65536 ->
  int_from_bytes_big (slice_to 2 (two_bytes op ++ two_bytes n ++ rest)) = op.
Proof. intros Hop. change (slice_to 2 _) with (two_bytes op). by apply int_from_two_bytes. Qed.

Lemma number_of_packet op n (rest : bytes) :
  0 <= n < 65536 ->
  int_from_bytes_big (slice 2 4 (two_bytes op ++ two_bytes n ++ rest)) = n.
Proof. intros Hn. change (slice 2 4 _) with (two_bytes n). by apply int_from_two_bytes. Qed.

Lemma payload_of_packet op n (rest : bytes) :
  slice_from 4 (two_bytes op ++ two_bytes n ++ rest) = rest.
Proof. reflexivity. Qed.

Lemma sent_ack_ACK n dest :
  0 <= n < 65536 -> sent_ack (SendTo (ACK_packet n) dest) = Some n.
Proof.
  intros Hn. unfold sent_ack, ACK_packet.
  rewrite <- (app_nil_r (two_bytes n)).
  rewrite opcode_of_packet by (simpl; lia). rewrite number_of_packet by done.
  done.
Qed.

Lemma sent_data_DATA n blk dest :
  0 <= n < 65536 -> sent_data (SendTo (DATA_packet n blk) dest) = Some n.
Proof.
  intros Hn. unfold sent_data, DATA_packet.
  rewrite opcode_of_packet by (simpl; lia). rewrite number_of_packet by done.
  done.
Qed.

Lemma pack_request_Ok op filename mode :
  pack_request (OPCODE op) filename mode = Ok (REQUEST_packet op filename mode).
Proof.
  unfold pack_request, REQUEST_packet.
  by rewrite (pack_h_two_bytes (OPCODE op)) by (destruct op; simpl; lia).
Qed.

Lemma send_rrq_Ok filename mode dest :
  send_rrq filename mode dest = Ok [SendTo (REQUEST_packet RRQ filename mode) dest].
Proof. unfold send_rrq. by rewrite pack_request_Ok. Qed.

Lemma send_wrq_Ok filename mode dest :
  send_wrq filename mode dest = Ok [SendTo (REQUEST_packet WRQ filename mode) dest].
Proof. unfold send_wrq. by rewrite pack_request_Ok. Qed.

Lemma recvfrom_whole (payload : bytes) :
  len payload <= 516 -> recvfrom 516 payload = payload.
Proof.
  intros Hlen. unfold recvfrom, slice_to. apply firstn_all2. unfold len in Hlen. lia.
Qed.

(** ** The download loop *)

Section get_file_facts.
Variable filename : string.

(** The DATA branch, by cases on whether the block is the expected one and
    whether its ACK can be packed. *)
Lemma get_data_mismatch st data server :
  int_from_bytes_big (slice 2 4 data) <> expected_block_number st ->
  get_data filename st data server
  = if len (slice_from 4 data) <? BLOCK_SIZE
    then ([Print "File transfer completed."], st, Break)
    else ([], st, Continue).
Proof.
  intros Hne. unfold get_data.
  destruct (Z.eqb_spec (int_from_bytes_big (slice 2 4 data)) (expected_block_number st)); [done|].
  by destruct (_ <? _).
Qed.

Lemma get_data_match st data server :
  int_from_bytes_big (slice 2 4 data) = expected_block_number st ->
  expected_block_number st <= 32767 ->
  get_data filename st data server
  = let file_block := slice_from 4 data in
    let st1 := GetState (expected_block_number st + 1)
                        (file_write filename file_block (get_fs st)) in
    let acts := [FileWrite file_block;
                 SendTo (ACK_packet (expected_block_number st)) server] in
    if len file_block <? BLOCK_SIZE
    then (acts ++ [Print "File transfer completed."], st1, Break)
    else (acts, st1, Continue).
Proof.
  intros Heq Hle. unfold get_data. rewrite Heq, Z.eqb_refl.
  unfold send_ack. rewrite pack_ack_Ok
    by (split; [rewrite <- Heq; apply int_from_bytes_big_nonneg | done]).
  simpl. by destruct (_ <? _).
Qed.

Lemma get_data_match_raises st data server :
  int_from_bytes_big (slice 2 4 data) = expected_block_number st ->
  32767 < expected_block_number st ->
  get_data filename st data server
  = ([FileWrite (slice_from 4 data)],
     GetState (expected_block_number st)
              (file_write filename (slice_from 4 data) (get_fs st)),
     Throw StructError).
Proof.
  intros Heq Hgt. unfold get_data. rewrite Heq, Z.eqb_refl.
  unfold send_ack. by rewrite pack_ack_raises.
Qed.

(** A loop turn sends at most one ACK, for the expected block, and then
    expects the next one. *)
Lemma get_iter_acks st ev acts st1 c :
  0 <= expected_block_number st ->
  get_iter filename st ev = (acts, st1, c) ->
  (acks_sent acts = [] /\ expected_block_number st1 = expected_block_number st)
  \/ (acks_sent acts = [expected_block_number st]
      /\ expected_block_number st1 = expected_block_number st + 1).
Proof.
  intros Hpos. destruct ev as [payload server|]; unfold get_iter.
  2: { intros [= <- <- <-]. by left. }
  set (data := recvfrom 516 payload).
  destruct (_ =? OPCODE DATA).
  - destruct (Z.eq_dec (int_from_bytes_big (slice 2 4 data)) (expected_block_number st)) as [Heq|Hne].
    + destruct (Z_le_gt_dec (expected_block_number st) 32767) as [Hle|Hgt].
      * rewrite get_data_match by done. cbv zeta.
        destruct (_ <? _); intros [= <- <- <-]; right; split; try done;
          unfold acks_sent; cbn [omap list_omap app]; rewrite sent_ack_ACK by lia; done.
      * rewrite get_data_match_raises by lia. intros [= <- <- <-]. by left.
    + rewrite get_data_mismatch by done.
      destruct (_ <? _); intros [= <- <- <-]; by left.
  - destruct (_ =? OPCODE ERROR).
    + unfold get_error. destruct (ERROR_CODE !! _); intros [= <- <- <-]; by left.
    + intros [= <- <- <-]. by left.
Qed.

Lemma get_loop_acks events : forall st acts st1 o,
  0 <= expected_block_number st ->
  get_loop filename st events = (acts, st1, o) ->
  expected_block_number st <= expected_block_number st1
  /\ acks_sent acts
     = seqZ (expected_block_number st)
            (expected_block_number st1 - expected_block_number st).
Proof.
  induction events as [|ev events IH]; intros st acts st1 o Hpos; simpl.
  - intros [= <- <- <-]. rewrite Z.sub_diag. done.
  - destruct (get_iter filename st ev) as [[a1 s1] c] eqn:Hit.
    apply get_iter_acks in Hit as Hacks; [|done].
    assert (Hend : (a1, s1) = (acts, st1) ->
              expected_block_number st <= expected_block_number st1
              /\ acks_sent acts
                 = seqZ (expected_block_number st)
                        (expected_block_number st1 - expected_block_number st)).
    { intros [= <- <-].
      destruct Hacks as [[-> ->]|[-> ->]].
      - rewrite Z.sub_diag. done.
      - split; [lia|]. replace (_ + 1 - _) with 1 by lia. done. }
    destruct c; try (intros [= <- <- <-]; by apply Hend).
    destruct (get_loop filename s1 events) as [[a2 s2] o2] eqn:Hloop.
    intros [= <- <- <-].
    apply IH in Hloop as [Hle Hrest]; [|destruct Hacks as [[_ ->]|[_ ->]]; lia].
    unfold acks_sent in *. rewrite omap_app, Hrest.
    destruct Hacks as [[-> Hs]|[-> Hs]]; rewrite Hs in *.
    + done.
    + split; [lia|]. simpl.
      rewrite (seqZ_cons (expected_block_number st)) by lia.
      do 2 f_equal; lia.
Qed.
End get_file_facts.

Section get_file_runs.
Variable filename : string.

(** A run that is still waiting goes on with the next events. *)
Lemma get_loop_app events1 events2 : forall st t1 st1,
  get_loop filename st events1 = (t1, st1, Blocked) ->
  get_loop filename st (events1 ++ events2)
  = let '(t2, st2, o) := get_loop filename st1 events2 in (t1 ++ t2, st2, o).
Proof.
  induction events1 as [|ev events1 IH]; intros st t1 st1; simpl.
  - intros [= <- <-]. by destruct (get_loop filename st events2) as [[? ?] ?].
  - destruct (get_iter filename st ev) as [[a1 s1] c].
    destruct c; try done.
    destruct (get_loop filename s1 events1) as [[a2 s2] o2] eqn:Hloop.
    intros [= <- <- ->]. rewrite (IH _ _ _ Hloop).
    destruct (get_loop filename s2 events2) as [[? ?] ?]. by rewrite app_assoc.
Qed.

Lemma get_file_unfold server_address fs events :
  get_file filename server_address fs events
  = let '(acts, st, o) := get_loop filename (GetState 1 (open_wb filename fs)) events in
    let head := [SendTo (REQUEST_packet RRQ filename DEFAULT_TRANSFER_MODE) server_address;
                 OpenWb filename] in
    match o with
    | Returned => (head ++ acts ++ [FileClose], get_fs st, Returned)
    | _ => (head ++ acts, get_fs st, o)
    end.
Proof.
  unfold get_file. rewrite send_rrq_Ok.
  destruct (get_loop _ _ _) as [[acts st] o]. by destruct o.
Qed.

(** What the loop makes of the packets it meets. *)
Lemma get_iter_data st payload server :
  int_from_bytes_big (slice_to 2 (recvfrom 516 payload)) = OPCODE DATA ->
  get_iter filename st (Datagram payload server)
  = let '(acts, st1, c) := get_data filename st (recvfrom 516 payload) server in
    (RecvFrom (recvfrom 516 payload) server :: acts, st1, c).
Proof. intros Hop. unfold get_iter. by rewrite Hop. Qed.

Lemma get_iter_error st payload server :
  int_from_bytes_big (slice_to 2 (recvfrom 516 payload)) = OPCODE ERROR ->
  get_iter filename st (Datagram payload server)
  = let '(acts, st1, c) := get_error filename st (recvfrom 516 payload) in
    (RecvFrom (recvfrom 516 payload) server :: acts, st1, c).
Proof. intros Hop. unfold get_iter. by rewrite Hop. Qed.



Lemma get_data_full st data server :
  len (slice_from 4 data) = BLOCK_SIZE ->
  (get_data filename st data server).2 <> Break.
Proof.
  intros Hfull. unfold get_data.
  destruct (_ =? expected_block_number st).
  - destruct (send_ack _ _); [|done].
    by destruct (Z.ltb_spec (len (slice_from 4 data)) BLOCK_SIZE); [lia|].
  - by destruct (Z.ltb_spec (len (slice_from 4 data)) BLOCK_SIZE); [lia|].
Qed.

(** Full blocks that arrive in order are all accepted. *)
Lemma get_iter_full_block st source :
  0 <= expected_block_number st <= 32767 ->
  get_iter filename st
    (Datagram (DATA_packet (expected_block_number st) full_block) source)
  = ([RecvFrom (DATA_packet (expected_block_number st) full_block) source;
      FileWrite full_block;
      SendTo (ACK_packet (expected_block_number st)) source],
     GetState (expected_block_number st + 1)
              (file_write filename full_block (get_fs st)),
     Continue).
Proof.
  intros Hrange.
  assert (Hwhole : recvfrom 516 (DATA_packet (expected_block_number st) full_block)
                   = DATA_packet (expected_block_number st) full_block)
    by (apply recvfrom_whole; vm_compute; discriminate).
  rewrite get_iter_data; rewrite Hwhole.
  2: { unfold DATA_packet. by rewrite opcode_of_packet by (simpl; lia). }
  rewrite get_data_match.
  - unfold DATA_packet. rewrite payload_of_packet. done.
  - unfold DATA_packet. rewrite number_of_packet; lia.
  - lia.
Qed.

Lemma get_loop_full_blocks (n : nat) source rest : forall st,
  0 <= expected_block_number st ->
  expected_block_number st + Z.of_nat n <= 32768 ->
  exists t st1,
    expected_block_number st1 = expected_block_number st + Z.of_nat n
    /\ get_loop filename st
         (full_blocks (expected_block_number st) (Z.of_nat n) source ++ rest)
       = let '(t2, st2, o) := get_loop filename st1 rest in (t ++ t2, st2, o).
Proof.
  induction n as [|n IH]; intros st Hpos Hle.
  - exists [], st. split; [simpl; lia|].
    unfold full_blocks. rewrite seqZ_nil by done. simpl.
    by destruct (get_loop filename st rest) as [[? ?] ?].
  - unfold full_blocks. rewrite seqZ_cons by lia. rewrite fmap_cons.
    cbn [app get_loop]. rewrite get_iter_full_block by lia.
    set (st' := GetState _ _).
    destruct (IH st') as (t & st1 & Hexp & Hrun); [simpl; lia | simpl; lia |].
    simpl in Hexp, Hrun.
    replace (Z.pred (Z.of_nat (S n))) with (Z.of_nat n) by lia.
    replace (Z.succ (expected_block_number st)) with (expected_block_number st + 1) by lia.
    unfold full_blocks in Hrun. rewrite Hrun.
    eexists _, st1. split; [lia|].
    destruct (get_loop filename st1 rest) as [[t2 st2] o].
    by rewrite app_assoc.
Qed.
End get_file_runs.

(** ** The upload loop *)

Section put_file_facts.
Variable filename : string.
Variable server_address : address.

Lemma put_send_Ok st :
  0 <= block_number st + 1 <= 32767 ->
  put_send server_address st
  = let file_block := file_read BLOCK_SIZE st in
    ([FileRead file_block;
      SendTo (DATA_packet (block_number st + 1) file_block) server_address],
     PutState (block_number st) (file_content st) (file_pos st + len file_block),
     file_block, None).
Proof. intros Hn. unfold put_send. by rewrite pack_data_Ok. Qed.

Lemma put_send_raises st :
  32767 < block_number st + 1 ->
  put_send server_address st
  = let file_block := file_read BLOCK_SIZE st in
    ([FileRead file_block],
     PutState (block_number st) (file_content st) (file_pos st + len file_block),
     file_block, Some StructError).
Proof. intros Hn. unfold put_send. by rewrite pack_data_raises. Qed.

(** The reply handler sends nothing, leaves the file object alone, and
    moves the block number on only for the matching ACK. *)
Lemma put_reply_spec st ev acts st1 :
  put_reply st ev = (acts, st1) ->
  Forall (fun a => sent_to a = None) acts
  /\ file_content st1 = file_content st
  /\ file_pos st1 = file_pos st
  /\ (block_number st1 = block_number st
      \/ (block_number st1 = block_number st + 1
          /\ exists r, acts !! 0%nat = Some r
                       /\ received_ack r = Some (block_number st + 1))).
Proof.
  destruct ev as [payload server|]; unfold put_reply.
  2: { intros [= <- <-]. repeat split; auto; repeat constructor. }
  set (ack := recvfrom 516 payload).
  destruct (Z.eqb_spec (int_from_bytes_big (slice_to 2 ack)) (OPCODE ACK)) as [Hop|Hop];
    destruct (Z.eqb_spec (int_from_bytes_big (slice 2 4 ack)) (block_number st + 1)) as [Hn|Hn];
    cbn [andb]; intros [= <- <-]; (repeat split; [repeat constructor|..]); auto.
  right. split; [done|]. eexists. split; [done|].
  unfold received_ack. rewrite Hop, Hn. done.
Qed.

Lemma put_recv_spec st file_block ev acts st1 c :
  put_recv st file_block ev = (acts, st1, c) ->
  Forall (fun a => sent_to a = None) acts
  /\ file_content st1 = file_content st
  /\ file_pos st1 = file_pos st
  /\ (block_number st1 = block_number st
      \/ (block_number st1 = block_number st + 1
          /\ exists r, acts !! 0%nat = Some r
                       /\ received_ack r = Some (block_number st + 1)))
  /\ c = (if len file_block <? BLOCK_SIZE then Break else Continue).
Proof.
  unfold put_recv. destruct (put_reply st ev) as [a0 s0] eqn:Hrep.
  apply put_reply_spec in Hrep as (Hsend & Hc & Hp & Hbn).
  destruct (len file_block <? BLOCK_SIZE); intros [= <- <- <-]; repeat split; auto.
  - apply Forall_app. split; [done|]. repeat constructor.
  - destruct Hbn as [Hb|[Hb (r & Hr & Hack)]].
    + by left.
    + right. split; [done|]. exists r. split; [|done]. by apply lookup_app_l_Some.
Qed.


Lemma sent_data_sent_to a n : sent_data a = Some n -> is_Some (sent_to a).
Proof. by destruct a. Qed.

(** Every packet the upload sends goes to the address the call was given. *)
Lemma put_loop_sends_to events : forall st t st1 o,
  put_loop server_address st events = (t, st1, o) ->
  Forall (fun a => sent_to a = None \/ sent_to a = Some server_address) t.
Proof.
  assert (Hsent : forall fb msg,
            Forall (fun a => sent_to a = None \/ sent_to a = Some server_address)
                   [FileRead fb; SendTo msg server_address]).
  { intros fb msg. apply Forall_cons; split; [by left|].
    apply Forall_cons; split; [by right|]. constructor. }
  induction events as [|ev events IH]; intros st t st1 o;
    cbn [put_loop]; unfold put_send;
    (destruct (pack_data _ _) as [msg|e];
     [|intros [= <- <- <-]; apply Forall_cons; split; [by left|constructor]]).
  - intros [= <- <- <-]. apply Hsent.
  - set (fb := file_read BLOCK_SIZE st). set (s1 := PutState _ _ _).
    destruct (put_recv s1 fb ev) as [[a2 s2] c] eqn:Hrecv.
    apply put_recv_spec in Hrecv as (Hsend & _).
    assert (Hhead : Forall (fun a => sent_to a = None \/ sent_to a = Some server_address)
                           ([FileRead fb; SendTo msg server_address] ++ a2)).
    { apply Forall_app. split; [apply Hsent|].
      eapply Forall_impl; [exact Hsend|]. intros a Ha. by left. }
    destruct c; try (intros [= <- <- <-]; exact Hhead).
    destruct (put_loop server_address s2 events) as [[a3 s3] o3] eqn:Hloop.
    intros [= <- <- <-]. apply IH in Hloop.
    apply (Forall_app _ ([FileRead fb; SendTo msg server_address] ++ a2) a3).
    split; [exact Hhead | exact Hloop].
Qed.

(** A DATA packet numbered [n + 1] is sent either while [n] is the
    current block number or after an ACK numbered [n] came in. *)
Lemma put_loop_lock_step events : forall st t st1 o,
  0 <= block_number st ->
  put_loop server_address st events = (t, st1, o) ->
  forall i a n,
    t !! i = Some a -> sent_data a = Some (n + 1) ->
    n = block_number st \/ acked_before t i n.
Proof.
  induction events as [|ev events IH]; intros st t st1 o Hpos;
    cbn [put_loop];
    (destruct (Z_le_gt_dec (block_number st + 1) 32767) as [Hle|Hgt];
     [rewrite put_send_Ok by lia; cbv beta iota zeta
     |rewrite put_send_raises by lia; cbv beta iota zeta;
      intros [= <- <- <-] [|[|i]] a n [= <-]; done]).
  - intros [= <- <- <-] [|[|[|i]]] a n [= <-]; [done|].
    rewrite sent_data_DATA by lia. intros [= Hn]. left. lia.
  - set (fb := file_read BLOCK_SIZE st). set (s1 := PutState _ _ _).
    destruct (put_recv s1 fb ev) as [[a2 s2] c] eqn:Hrecv.
    apply put_recv_spec in Hrecv as (Hsend & _ & _ & Hbn & _).
    unfold s1 in Hbn. cbn [block_number] in Hbn.
    set (sent := [FileRead fb; SendTo (DATA_packet (block_number st + 1) fb) server_address]).
    assert (Hhead : forall i a n,
              (sent ++ a2) !! i = Some a -> sent_data a = Some (n + 1) ->
              n = block_number st).
    { intros i a n Hi Ha.
      apply lookup_app_Some in Hi as [Hi|[_ Hi]].
      - subst sent. destruct i as [|[|i]]; simpl in Hi; [by simplify_eq| |done].
        injection Hi as <-. rewrite sent_data_DATA in Ha by lia. simplify_eq. lia.
      - rewrite Forall_lookup in Hsend. apply Hsend in Hi.
        apply sent_data_sent_to in Ha as [d Hd]. congruence. }
    destruct c;
      try (intros [= <- <- <-] i a n Hi Ha; left; exact (Hhead i a n Hi Ha)).
    destruct (put_loop server_address s2 events) as [[a3 s3] o3] eqn:Hloop.
    intros [= <- <- <-] i a n Hi Ha.
    change (_ :: _ :: a2 ++ a3) with ((sent ++ a2) ++ a3) in Hi |- *.
    apply lookup_app_Some in Hi as [Hi|[Hlen Hi]];
      [left; exact (Hhead i a n Hi Ha)|].
    assert (Hpos2 : 0 <= block_number s2)
      by (destruct Hbn as [Hb|[Hb _]]; simpl in Hb; lia).
    destruct (IH s2 a3 s3 o3 Hpos2 Hloop _ _ _ Hi Ha)
      as [Hn|(j & r & Hj & Hr & Hack)].
    + destruct Hbn as [Hb|[Hb (r & Hr & Hack)]]; simpl in Hb; [left; lia|].
      right. exists 2%nat, r.
      pose proof (lookup_lt_Some _ _ _ Hr) as Hlt.
      rewrite length_app in Hlen. subst sent. simpl in Hlen.
      split; [lia|]. split; [|rewrite Hack; f_equal; lia].
      rewrite lookup_app_l by (rewrite length_app; simpl; lia).
      exact Hr.
    + right. exists (length (sent ++ a2) + j)%nat, r.
      split; [lia|]. split; [|done].
      rewrite lookup_app_r by lia. rewrite <- Hr. f_equal. lia.
Qed.
End put_file_facts.

(** ** The error catalogue *)

Lemma ERROR_CODE_defined c : 0 <= c <= 7 -> is_Some (ERROR_CODE !! c).
Proof.
  intros Hc.
  assert (Hcases : c = 0 \/ c = 1 \/ c = 2 \/ c = 3 \/ c = 4 \/ c = 5 \/ c = 6 \/ c = 7) by lia.
  destruct Hcases as [->|[->|[->|[->|[->|[->|[->| ->]]]]]]]; vm_compute; eauto.
Qed.

Lemma ERROR_CODE_undefined c : ~ 0 <= c <= 7 -> ERROR_CODE !! c = None.
Proof.
  intros Hc. unfold ERROR_CODE. cbn [list_to_map foldr uncurry fst snd].
  rewrite !lookup_insert_ne by lia. apply lookup_empty.
Qed.

Section get_error_facts.
Variable filename : string.

Lemma get_error_catalogued st data msg :
  ERROR_CODE !! int_from_bytes_big (slice 2 4 data) = Some msg ->
  get_error filename st data
  = ([Print ("Error " +:+ pretty (int_from_bytes_big (slice 2 4 data)) +:+ ": " +:+ msg);
      FileClose; OsRemove filename],
     GetState (expected_block_number st) (os_remove filename (get_fs st)),
     Break).
Proof. intros Hmsg. unfold get_error. by rewrite Hmsg. Qed.

Lemma get_error_uncatalogued st data :
  ~ 0 <= int_from_bytes_big (slice 2 4 data) <= 7 ->
  get_error filename st data
  = ([], st, Throw (KeyError (int_from_bytes_big (slice 2 4 data)))).
Proof. intros Hc. unfold get_error. by rewrite ERROR_CODE_undefined. Qed.
End get_error_facts.

Lemma len_DATA_packet n (blk : bytes) : len (DATA_packet n blk) = 4 + len blk.
Proof. unfold len, DATA_packet, two_bytes. rewrite !length_app. simpl. lia. Qed.

Lemma opcode_ACK_packet n :
  int_from_bytes_big (slice_to 2 (ACK_packet n)) = OPCODE ACK.
Proof. reflexivity. Qed.

Lemma number_ACK_packet n :
  0 <= n < 65536 -> int_from_bytes_big (slice 2 4 (ACK_packet n)) = n.
Proof.
  intros Hn. unfold ACK_packet. rewrite <- (app_nil_r (two_bytes n)).
  by apply number_of_packet.
Qed.

(** The expected block arrives, short or full, and its ACK can be packed. *)
Lemma get_iter_expected_block filename st blk server :
  0 <= expected_block_number st <= 32767 ->
  len blk <= 512 ->
  get_iter filename st (Datagram (DATA_packet (expected_block_number st) blk) server)
  = (RecvFrom (DATA_packet (expected_block_number st) blk) server
       :: FileWrite blk
       :: SendTo (ACK_packet (expected_block_number st)) server
       :: (if len blk <? BLOCK_SIZE then [Print "File transfer completed."] else []),
     GetState (expected_block_number st + 1) (file_write filename blk (get_fs st)),
     if len blk <? BLOCK_SIZE then Break else Continue).
Proof.
  intros Hrange Hlen.
  assert (Hwhole : recvfrom 516 (DATA_packet (expected_block_number st) blk)
                   = DATA_packet (expected_block_number st) blk)
    by (apply recvfrom_whole; rewrite len_DATA_packet; lia).
  rewrite get_iter_data; rewrite Hwhole.
  2: { unfold DATA_packet. by rewrite opcode_of_packet by (simpl; lia). }
  rewrite get_data_match.
  - unfold DATA_packet. rewrite payload_of_packet. cbv zeta.
    by destruct (len blk <? BLOCK_SIZE).
  - unfold DATA_packet. rewrite number_of_packet; lia.
  - lia.
Qed.

Lemma sent_ack_REQUEST filename mode dest :
  sent_ack (SendTo (REQUEST_packet RRQ filename mode) dest) = None.
Proof. reflexivity. Qed.

Lemma sent_data_REQUEST filename mode dest :
  sent_data (SendTo (REQUEST_packet WRQ filename mode) dest) = None.
Proof. reflexivity. Qed.

Lemma acked_before_shift pre t post i n :
  acked_before t i n -> acked_before (pre ++ t ++ post) (length pre + i) n.
Proof.
  intros (j & r & Hj & Hr & Hack). exists (length pre + j)%nat, r.
  split; [lia|]. split; [|done].
  rewrite lookup_app_r by lia.
  replace (length pre + j - length pre)%nat with j by lia.
  by rewrite lookup_app_l by (by eapply lookup_lt_Some).
Qed.

(** * The claims *)

(** Block 32768 arrives in order: packing its ACK raises, whatever the
    payload and whatever follows. *)
Lemma get_file_block_32768_raises filename server_address fs source blk rest :
  len blk <= 512 ->
  (get_file filename server_address fs
     (full_blocks 1 32767 source ++ Datagram (DATA_packet 32768 blk) source :: rest)).2
  = Uncaught StructError.
Proof.
  intros Hlen. rewrite get_file_unfold.
  destruct (get_loop_full_blocks filename (Z.to_nat 32767) source
              (Datagram (DATA_packet 32768 blk) source :: rest)
              (GetState 1 (open_wb filename fs))) as (t & st1 & Hexp & Hrun).
  { simpl. lia. }
  { cbn [expected_block_number]. rewrite Z2Nat.id; lia. }
  cbn [expected_block_number] in Hexp, Hrun.
  rewrite Z2Nat.id in Hexp, Hrun by lia. rewrite Hrun.
  assert (Hwhole : recvfrom 516 (DATA_packet 32768 blk) = DATA_packet 32768 blk)
    by (apply recvfrom_whole; rewrite len_DATA_packet; lia).
  cbn [get_loop]. rewrite get_iter_data; rewrite Hwhole; [|reflexivity].
  rewrite get_data_match_raises.
  - reflexivity.
  - rewrite Hexp. reflexivity.
  - lia.
Qed.

(** C1 (failing run).  A download that has accepted the full blocks 1 to
    32767 and then receives block 32768 with an empty payload, a final block
    with the expected number, does not leave its loop successfully: packing
    the ACK raises [struct.error], which nothing catches. *)
Theorem get_final_block_32768_raises filename server_address fs source :
  (get_file filename server_address fs
     (full_blocks 1 32767 source ++ [Datagram (DATA_packet 32768 []) source])).2
  = Uncaught StructError.
Proof. apply get_file_block_32768_raises. vm_compute. discriminate. Qed.

(** C2 (failing run).  Uploading a 512-byte file: the client sends DATA 1,
    receives ACK 1, sends the empty DATA 2, and when the wait for its ACK
    times out it prints its messages, closes the file and returns.  The only
    ACK it ever received is ACK 1. *)
Theorem put_returns_without_final_ack :
  let '(t, o) := put_file "f" example_server {[ "f"%string := full_block ]}
                   [Datagram (ACK_packet 1) example_peer; Timeout] in
  omap sent_data t = [1; 2]
  /\ omap received_ack t = [1]
  /\ drop 5 t
     = [FileRead []; SendTo (DATA_packet 2 []) example_server; RecvTimeout;
        Print "Timeout occurred while waiting for ACK. Resending...";
        Print "File transfer completed."; FileClose]
  /\ o = Returned.
Proof. vm_compute. done. Qed.

(** C3 (failing run).  Whatever the replies and wherever they come from,
    every packet [put_file] sends goes to the address the call was given;
    with the server answering from port 50000, the WRQ and both DATA packets
    of a 512-byte upload still go to the configured port. *)
Theorem put_never_adopts_reply_address :
  (forall filename server_address fs events,
     Forall (fun a => sent_to a = None \/ sent_to a = Some server_address)
            (put_file filename server_address fs events).1)
  /\ (let '(t, o) := put_file "f" example_server {[ "f"%string := full_block ]}
                       [Datagram (ACK_packet 1) example_peer;
                        Datagram (ACK_packet 2) example_peer] in
      omap sent_to t = [example_server; example_server; example_server]
      /\ omap received_ack t = [1; 2]
      /\ o = Returned).
Proof.
  split; [|vm_compute; done].
  intros filename server_address fs events. unfold put_file.
  destruct (fs !! filename) as [content|]; [|by repeat constructor].
  rewrite send_wrq_Ok.
  destruct (put_loop _ _ _) as [[acts st] o] eqn:Hloop.
  apply put_loop_sends_to in Hloop.
  assert (Hall : Forall (fun a => sent_to a = None \/ sent_to a = Some server_address)
                   ([SendTo (REQUEST_packet WRQ filename DEFAULT_TRANSFER_MODE) server_address]
                      ++ OpenRb filename :: acts ++ [FileClose])).
  { apply Forall_app. split; [apply Forall_cons; split; [by right|constructor]|].
    apply Forall_cons; split; [by left|].
    apply Forall_app. split; [done|]. apply Forall_cons; split; [by left|constructor]. }
  destruct o; cbn [fst]; try exact Hall;
    rewrite app_comm_cons, app_assoc in Hall;
    apply Forall_app in Hall as [Hall _]; exact Hall.
Qed.

(** C4 (failing run).  An ERROR packet with code 8 makes the download stop
    with an uncaught [KeyError]: nothing is printed, the file is not closed
    or removed, and the emptied local file stays behind. *)
Theorem get_error_code_8_raises :
  let '(t, fs', o) := get_file "f" example_server {[ "f"%string := full_block ]}
                        [Datagram (ERROR_packet 8 "") example_peer] in
  t = [SendTo (REQUEST_packet RRQ "f" DEFAULT_TRANSFER_MODE) example_server;
       OpenWb "f";
       RecvFrom (ERROR_packet 8 "") example_peer]
  /\ fs' !! "f"%string = Some []
  /\ o = Uncaught (KeyError 8).
Proof. vm_compute. done. Qed.

(** C5.  When a [recvfrom] of the download times out, whatever was received
    before, the session prints the timeout message, closes and removes the
    local file and leaves through [sys.exit(1)]: nothing is sent again, no
    later event is looked at, and the local file is gone.  With no reply at
    all ([events1] empty) the whole trace is the RRQ, the open, and these
    four steps. *)
Theorem get_timeout_is_fatal filename server_address fs events1 events2 t1 st1 :
  get_loop filename (GetState 1 (open_wb filename fs)) events1 = (t1, st1, Blocked) ->
  let '(t, fs', o) :=
    get_file filename server_address fs (events1 ++ Timeout :: events2) in
  t = [SendTo (REQUEST_packet RRQ filename DEFAULT_TRANSFER_MODE) server_address;
       OpenWb filename]
      ++ t1
      ++ [RecvTimeout; Print "Timeout occurred. No response from server.";
          FileClose; OsRemove filename]
  /\ fs' !! filename = None
  /\ o = Exited 1.
Proof.
  intros Hrun. rewrite get_file_unfold, (get_loop_app _ _ _ _ _ _ Hrun).
  cbn [get_loop get_iter get_fs]. repeat split.
  apply lookup_delete_eq.
Qed.

Lemma get_timeout_is_fatal_witness :
  let '(t, fs', o) :=
    get_file "f" example_server {[ "f"%string := full_block ]} ([] ++ Timeout :: []) in
  t = [SendTo (REQUEST_packet RRQ "f" DEFAULT_TRANSFER_MODE) example_server;
       OpenWb "f"]
      ++ []
      ++ [RecvTimeout; Print "Timeout occurred. No response from server.";
          FileClose; OsRemove "f"]
  /\ fs' !! "f"%string = None
  /\ o = Exited 1.
Proof.
  apply (get_timeout_is_fatal "f" example_server {[ "f"%string := full_block ]}
           [] [] [] (GetState 1 (open_wb "f" {[ "f"%string := full_block ]}))).
  reflexivity.
Defined.



(** C7.  In any run of the download, the ACKs sent carry the numbers
    1, 2, 3, ... in order, each once.  In any run of the upload, a DATA
    packet numbered [n + 1], for a block number [n >= 1], is sent only after
    an ACK numbered [n] has been received. *)
Theorem transfers_are_lock_step filename server_address fs events :
  (let t := (get_file filename server_address fs events).1.1 in
   acks_sent t = seqZ 1 (len (acks_sent t)))
  /\ (forall i a n,
        1 <= n ->
        (put_file filename server_address fs events).1 !! i = Some a ->
        sent_data a = Some (n + 1) ->
        acked_before (put_file filename server_address fs events).1 i n).
Proof.
  split.
  - cbv zeta. rewrite get_file_unfold.
    destruct (get_loop _ _ _) as [[acts st] o] eqn:Hloop.
    apply get_loop_acks in Hloop as [Hle Hacks]; [|simpl; lia].
    cbn [expected_block_number] in Hle, Hacks.
    assert (Hlen : seqZ 1 (expected_block_number st - 1)
                   = seqZ 1 (len (seqZ 1 (expected_block_number st - 1)))).
    { unfold len. rewrite length_seqZ. by rewrite Z2Nat.id by lia. }
    assert (Hhead : forall tail,
              acks_sent tail = [] ->
              acks_sent ([SendTo (REQUEST_packet RRQ filename DEFAULT_TRANSFER_MODE) server_address;
                          OpenWb filename] ++ acts ++ tail)
              = seqZ 1 (expected_block_number st - 1)).
    { intros tail Htail. unfold acks_sent in *. rewrite !omap_app, Hacks, Htail.
      cbn [omap list_omap]. rewrite sent_ack_REQUEST. cbn [sent_ack app].
      by rewrite app_nil_r. }
    pose proof (Hhead [] eq_refl) as Hnil. rewrite app_nil_r in Hnil.
    destruct o; cbn [fst]; rewrite ?(Hhead [FileClose] eq_refl), ?Hnil; exact Hlen.
  - intros i a n Hn. unfold put_file.
    destruct (fs !! filename) as [content|].
    2: { cbn [fst]. intros Hi Ha. destruct i; simplify_eq/=. }
    rewrite send_wrq_Ok.
    destruct (put_loop _ _ _) as [[acts st] o] eqn:Hloop.
    pose proof (put_loop_lock_step server_address events
                  (PutState 0 content 0) acts st o ltac:(simpl; lia) Hloop) as Hstep.
    cbn [block_number] in Hstep.
    set (pre := [SendTo (REQUEST_packet WRQ filename DEFAULT_TRANSFER_MODE) server_address;
                 OpenRb filename]).
    assert (Hall : forall post,
              Forall (fun a => sent_data a = None) post ->
              (pre ++ acts ++ post) !! i = Some a ->
              sent_data a = Some (n + 1) ->
              acked_before (pre ++ acts ++ post) i n).
    { intros post Hpost Hi Ha.
      apply lookup_app_Some in Hi as [Hi|[Hlen Hi]].
      { subst pre. destruct i as [|[|i]]; simplify_eq/=. }
      apply lookup_app_Some in Hi as [Hi|[_ Hi]].
      - destruct (Hstep _ _ _ Hi Ha) as [?|Hack]; [lia|].
        apply (acked_before_shift pre _ post) in Hack.
        replace (length pre + (i - length pre))%nat with i in Hack by lia. done.
      - rewrite Forall_lookup in Hpost. apply Hpost in Hi. congruence. }
    pose proof (Hall [] ltac:(constructor)) as Hnil. rewrite app_nil_r in Hnil.
    destruct o; cbn [fst]; try exact Hnil.
    apply (Hall [FileClose]). by repeat constructor.
Qed.

Lemma transfers_are_lock_step_witness :
  let t := (put_file "f" example_server {[ "f"%string := full_block ]}
              [Datagram (ACK_packet 1) example_peer]).1 in
  1 <= 1
  /\ t !! 6%nat = Some (SendTo (DATA_packet 2 []) example_server)
  /\ sent_data (SendTo (DATA_packet 2 []) example_server) = Some (1 + 1)
  /\ acked_before t 6 1.
Proof.
  cbv zeta. split; [lia|]. split; [vm_compute; reflexivity|].
  split; [vm_compute; reflexivity|].
  apply (proj2 (transfers_are_lock_step "f" example_server
                  {[ "f"%string := full_block ]}
                  [Datagram (ACK_packet 1) example_peer])
               6%nat (SendTo (DATA_packet 2 []) example_server) 1).
  - lia.
  - vm_compute. reflexivity.
  - vm_compute. reflexivity.
Defined.

(** X16.  Block numbers from 1 to 32767.  For each of them the ACK and the
    DATA packet can be packed and their two-byte field reads back as the
    same number; a download expecting that block and receiving it sends its
    ACK and expects the next number, one more; an upload that receives its
    ACK moves its block number from one less to that number.  The first
    block a download accepts and the first DATA packet an upload sends are
    numbered 1. *)
Theorem block_numbers_count_up_without_wrap n :
  1 <= n <= 32767 ->
  (pack_ack n = Ok (ACK_packet n)
   /\ int_from_bytes_big (slice 2 4 (ACK_packet n)) = n)
  /\ (forall blk,
        pack_data n blk = Ok (DATA_packet n blk)
        /\ int_from_bytes_big (slice 2 4 (DATA_packet n blk)) = n)
  /\ (forall filename fs blk server,
        len blk <= 512 ->
        let '(acts, st1, _) :=
          get_iter filename (GetState n fs) (Datagram (DATA_packet n blk) server) in
        acks_sent acts = [n] /\ expected_block_number st1 = n + 1)
  /\ (forall content pos server,
        (put_reply (PutState (n - 1) content pos) (Datagram (ACK_packet n) server)).2
        = PutState n content pos)
  /\ (forall filename server_address fs blk server,
        len blk <= 512 ->
        acks_sent (get_file filename server_address fs
                     [Datagram (DATA_packet 1 blk) server]).1.1 = [1])
  /\ (forall filename server_address fs content,
        fs !! filename = Some content ->
        omap sent_data (put_file filename server_address fs []).1 = [1]).
Proof.
  intros Hn. split_and!.
  - apply pack_ack_Ok. lia.
  - apply number_ACK_packet. lia.
  - intros blk. split; [apply pack_data_Ok; lia|].
    unfold DATA_packet. apply number_of_packet. lia.
  - intros filename fs blk server Hlen.
    rewrite (get_iter_expected_block filename (GetState n fs))
      by (cbn [expected_block_number]; lia).
    cbn [expected_block_number]. split; [|done].
    unfold acks_sent. cbn [omap list_omap]. rewrite sent_ack_ACK by lia.
    cbn [sent_ack]. by destruct (len blk <? BLOCK_SIZE).
  - intros content pos server. unfold put_reply.
    rewrite recvfrom_whole by (vm_compute; discriminate).
    rewrite opcode_ACK_packet, number_ACK_packet by lia.
    cbn [block_number file_content file_pos snd].
    rewrite Z.eqb_refl. replace (n - 1 + 1) with n by lia.
    by rewrite Z.eqb_refl.
  - intros filename server_address fs blk server Hlen.
    rewrite get_file_unfold. cbn [get_loop].
    rewrite (get_iter_expected_block filename (GetState 1 (open_wb filename fs)))
      by (cbn [expected_block_number]; lia).
    cbn [expected_block_number].
    destruct (len blk <? BLOCK_SIZE); reflexivity.
  - intros filename server_address fs content Hfile.
    unfold put_file. rewrite Hfile, send_wrq_Ok. cbn [put_loop].
    rewrite put_send_Ok by (simpl; lia). cbn [block_number fst app].
    cbn [omap list_omap]. rewrite sent_data_REQUEST, sent_data_DATA by lia.
    reflexivity.
Qed.

Lemma block_numbers_count_up_without_wrap_witness :
  (pack_ack 32767 = Ok (ACK_packet 32767)
   /\ int_from_bytes_big (slice 2 4 (ACK_packet 32767)) = 32767)
  /\ (forall blk,
        pack_data 32767 blk = Ok (DATA_packet 32767 blk)
        /\ int_from_bytes_big (slice 2 4 (DATA_packet 32767 blk)) = 32767)
  /\ (forall filename fs blk server,
        len blk <= 512 ->
        let '(acts, st1, _) :=
          get_iter filename (GetState 32767 fs) (Datagram (DATA_packet 32767 blk) server) in
        acks_sent acts = [32767] /\ expected_block_number st1 = 32767 + 1)
  /\ (forall content pos server,
        (put_reply (PutState (32767 - 1) content pos)
                   (Datagram (ACK_packet 32767) server)).2
        = PutState 32767 content pos)
  /\ (forall filename server_address fs blk server,
        len blk <= 512 ->
        acks_sent (get_file filename server_address fs
                     [Datagram (DATA_packet 1 blk) server]).1.1 = [1])
  /\ (forall filename server_address fs content,
        fs !! filename = Some content ->
        omap sent_data (put_file filename server_address fs []).1 = [1]).
Proof. apply (block_numbers_count_up_without_wrap 32767). lia. Defined.


(** * Further properties of the script *)

(** ** Two-byte fields *)

Lemma int_from_bytes_big_bound (bs : bytes) :
  0 <= int_from_bytes_big bs < 256 ^ len bs.
Proof.
  induction bs as [|b bs IH] using rev_ind; [done|].
  rewrite int_from_bytes_big_snoc. unfold len in *. rewrite length_app.
  cbn [length]. rewrite Nat2Z.inj_add, Z.pow_add_r by lia.
  change (256 ^ Z.of_nat 1) with 256.
  pose proof (byte_to_Z_range b). nia.
Qed.

Lemma len_slice_to {A} n (l : list A) : 0 <= n -> len (slice_to n l) <= n.
Proof. intros Hn. unfold len, slice_to. rewrite length_take. lia. Qed.

Lemma len_slice {A} a b (l : list A) : 0 <= a <= b -> len (slice a b l) <= b - a.
Proof. intros Hab. unfold len, slice. rewrite length_take. lia. Qed.

(** X1.  A value written with the ['>h'] format and read back with
    [int.from_bytes(..., 'big')]: values from -32768 to 32767 are packed
    into two bytes that read back as the value modulo 65536 (the value
    itself when it is not negative); any other value raises. *)
Theorem pack_h_read_back v :
  pack_h v = (if decide (-32768 <= v <= 32767)
              then Ok (two_bytes (v mod 65536)) else Raise StructError)
  /\ int_from_bytes_big (two_bytes (v mod 65536)) = v mod 65536.
Proof.
  split.
  - unfold pack_h, two_bytes.
    destruct (Z.leb_spec (-32768) v), (Z.leb_spec v 32767);
      case_decide; try lia; done.
  - apply int_from_two_bytes. apply Z.mod_pos_bound. lia.
Qed.

(** X2.  Whatever bytes arrive, also fewer than four, the opcode and the
    block number (or error code) the loops read from them are numbers from
    0 to 65535. *)
Theorem decoded_fields_are_16_bit (data : bytes) :
  0 <= int_from_bytes_big (slice_to 2 data) < 65536
  /\ 0 <= int_from_bytes_big (slice 2 4 data) < 65536.
Proof.
  pose proof (int_from_bytes_big_bound (slice_to 2 data)) as H1.
  pose proof (int_from_bytes_big_bound (slice 2 4 data)) as H2.
  pose proof (len_slice_to 2 data ltac:(lia)) as L1.
  pose proof (len_slice 2 4 data ltac:(lia)) as L2.
  assert (Hpow : forall k, 0 <= k <= 2 -> 256 ^ k <= 65536).
  { intros k Hk. change 65536 with (256 ^ 2). apply Z.pow_le_mono_r; lia. }
  pose proof (Hpow (len (slice_to 2 data)) ltac:(unfold len in *; lia)).
  pose proof (Hpow (len (slice 2 4 data)) ltac:(unfold len in *; lia)).
  lia.
Qed.





(** ** More on the download *)

Lemma len_received_payload (payload : bytes) :
  len (slice_from 4 (recvfrom 516 payload)) <= 512.
Proof.
  unfold len, slice_from, recvfrom, slice_to. rewrite length_drop, length_take. lia.
Qed.

Lemma file_write_lookup_eq name blk (fs : gmap string bytes) content :
  fs !! name = Some content -> file_write name blk fs !! name = Some (content ++ blk).
Proof. intros Hc. unfold file_write. by rewrite lookup_alter_eq, Hc. Qed.

Lemma file_write_lookup_ne name other blk (fs : gmap string bytes) :
  other <> name -> file_write name blk fs !! other = fs !! other.
Proof. intros Hne. unfold file_write. by rewrite lookup_alter_ne. Qed.

Lemma file_write_insert name blk (fs : gmap string bytes) content :
  fs !! name = Some content -> file_write name blk fs = <[name := content ++ blk]> fs.
Proof.
  intros Hc. apply map_eq. intros other.
  destruct (decide (other = name)) as [->|Hne].
  - by rewrite (file_write_lookup_eq _ _ _ _ Hc), lookup_insert_eq.
  - by rewrite file_write_lookup_ne, lookup_insert_ne.
Qed.

Section get_file_more.
Variable filename : string.

(** The four things a turn of the loop can do: accept and acknowledge the
    expected block, accept it and fail to pack the ACK, do nothing, or
    remove the file. *)
Lemma get_iter_cases st ev acts st1 c :
  get_iter filename st ev = (acts, st1, c) ->
  (exists data server tail,
     acts = RecvFrom data server :: FileWrite (slice_from 4 data)
              :: SendTo (ACK_packet (expected_block_number st)) server :: tail
     /\ (tail = [] /\ c = Continue
         \/ tail = [Print "File transfer completed."] /\ c = Break)
     /\ int_from_bytes_big (slice_to 2 data) = OPCODE DATA
     /\ int_from_bytes_big (slice 2 4 data) = expected_block_number st
     /\ len (slice_from 4 data) <= 512
     /\ st1 = GetState (expected_block_number st + 1)
                       (file_write filename (slice_from 4 data) (get_fs st)))
  \/ (exists data server,
        acts = [RecvFrom data server; FileWrite (slice_from 4 data)]
        /\ len (slice_from 4 data) <= 512
        /\ c = Throw StructError
        /\ st1 = GetState (expected_block_number st)
                          (file_write filename (slice_from 4 data) (get_fs st)))
  \/ (exists data server tail,
        acts = RecvFrom data server :: tail
        /\ (tail = [] \/ tail = [Print "File transfer completed."])
        /\ st1 = st)
  \/ (exists first m,
        acts = [first; Print m; FileClose; OsRemove filename]
        /\ (first = RecvTimeout \/ exists data server, first = RecvFrom data server)
        /\ c <> Continue
        /\ st1 = GetState (expected_block_number st)
                          (os_remove filename (get_fs st))).
Proof.
  destruct ev as [payload server|]; unfold get_iter.
  2: { intros [= <- <- <-]. do 3 right. eexists _, _. split_and!; eauto. }
  set (data := recvfrom 516 payload).
  pose proof (len_received_payload payload) as Hlen. fold data in Hlen.
  destruct (Z.eqb_spec (int_from_bytes_big (slice_to 2 data)) (OPCODE DATA)) as [Hop|Hop].
  - destruct (Z.eq_dec (int_from_bytes_big (slice 2 4 data)) (expected_block_number st)) as [Heq|Hne].
    + destruct (Z_le_gt_dec (expected_block_number st) 32767) as [Hle|Hgt].
      * rewrite get_data_match by done. cbv zeta.
        destruct (_ <? _); intros [= <- <- <-]; left;
          eexists _, _, _; split_and!; eauto.
      * rewrite get_data_match_raises by lia. intros [= <- <- <-].
        right; left. eexists _, _. split_and!; eauto.
    + rewrite get_data_mismatch by done.
      destruct (_ <? _); intros [= <- <- <-]; do 2 right; left;
        eexists _, _, _; split_and!; eauto.
  - destruct (_ =? OPCODE ERROR).
    + unfold get_error. destruct (ERROR_CODE !! _); intros [= <- <- <-].
      * do 3 right. eexists _, _. split_and!; eauto.
      * do 2 right; left. eexists _, _, _. split_and!; eauto.
    + intros [= <- <- <-]. do 2 right; left. eexists _, _, _. split_and!; eauto.
Qed.



End get_file_more.

Section get_file_sends.
Variable filename : string.

Lemma get_iter_sends st ev acts st1 c :
  get_iter filename st ev = (acts, st1, c) ->
  forall i pkt dest,
    acts !! i = Some (SendTo pkt dest) ->
    exists data,
      (2 <= i)%nat
      /\ acts !! (i - 2)%nat = Some (RecvFrom data dest)
      /\ int_from_bytes_big (slice_to 2 data) = OPCODE DATA
      /\ pkt = ACK_packet (int_from_bytes_big (slice 2 4 data)).
Proof.
  intros Hit i pkt dest Hi. apply get_iter_cases in Hit
    as [(data & server & tail & -> & Htail & Hop & Hn & _)
       |[(data & server & -> & _)
        |[(data & server & tail & -> & Htail & _)
         |(first & m & -> & Hfirst & _)]]].
  - destruct i as [|[|[|i]]]; try done.
    + cbn in Hi. injection Hi as <- <-. exists data. rewrite Hn. by split_and!.
    + destruct Htail as [[-> _]|[-> _]]; by destruct i.
  - by destruct i as [|[|i]].
  - destruct Htail as [->| ->]; by destruct i as [|[|i]].
  - destruct Hfirst as [->|(data & server & ->)]; by destruct i as [|[|[|[|i]]]].
Qed.

Lemma get_loop_sends events : forall st t st1 o,
  get_loop filename st events = (t, st1, o) ->
  forall i pkt dest,
    t !! i = Some (SendTo pkt dest) ->
    exists data,
      (2 <= i)%nat
      /\ t !! (i - 2)%nat = Some (RecvFrom data dest)
      /\ int_from_bytes_big (slice_to 2 data) = OPCODE DATA
      /\ pkt = ACK_packet (int_from_bytes_big (slice 2 4 data)).
Proof.
  induction events as [|ev events IH]; intros st t st1 o; cbn [get_loop].
  - intros [= <- <- <-] i pkt dest Hi. by destruct i.
  - destruct (get_iter filename st ev) as [[a1 s1] c] eqn:Hit.
    pose proof (get_iter_sends _ _ _ _ _ Hit) as Hhead.
    destruct c; try (intros [= <- <- <-]; exact Hhead).
    destruct (get_loop filename s1 events) as [[a2 s2] o2] eqn:Hloop.
    intros [= <- <- <-] i pkt dest Hi.
    apply lookup_app_Some in Hi as [Hi|[Hlen Hi]].
    + destruct (Hhead _ _ _ Hi) as (data & Hge & Hrecv & Hop & Hpkt).
      exists data. split_and!; try done. by apply lookup_app_l_Some.
    + destruct (IH _ _ _ _ Hloop _ _ _ Hi) as (data & Hge & Hrecv & Hop & Hpkt).
      exists data. split_and!; try done; [lia|].
      rewrite lookup_app_r by lia. rewrite <- Hrecv. f_equal. lia.
Qed.

(** X5.  Everything a download sends: the first action is the RRQ, to the
    address the call was given; every later packet is an ACK, sent two steps
    after a DATA packet was received, to the address that packet came from
    and with the block number read from it. *)
Theorem get_file_sends_rrq_then_acks server_address fs events :
  forall i pkt dest,
    (get_file filename server_address fs events).1.1 !! i = Some (SendTo pkt dest) ->
    (i = 0%nat
     /\ pkt = REQUEST_packet RRQ filename DEFAULT_TRANSFER_MODE
     /\ dest = server_address)
    \/ (exists data,
          (3 <= i)%nat
          /\ (get_file filename server_address fs events).1.1 !! (i - 2)%nat
             = Some (RecvFrom data dest)
          /\ int_from_bytes_big (slice_to 2 data) = OPCODE DATA
          /\ pkt = ACK_packet (int_from_bytes_big (slice 2 4 data))).
Proof.
  rewrite get_file_unfold.
  destruct (get_loop _ _ _) as [[acts st] o] eqn:Hloop.
  pose proof (get_loop_sends _ _ _ _ _ Hloop) as Hsends.
  assert (Hall : forall tail,
            tail = [] \/ tail = [FileClose] ->
            forall i pkt dest,
              (SendTo (REQUEST_packet RRQ filename DEFAULT_TRANSFER_MODE) server_address
                 :: OpenWb filename :: acts ++ tail) !! i = Some (SendTo pkt dest) ->
              (i = 0%nat
               /\ pkt = REQUEST_packet RRQ filename DEFAULT_TRANSFER_MODE
               /\ dest = server_address)
              \/ (exists data,
                    (3 <= i)%nat
                    /\ (SendTo (REQUEST_packet RRQ filename DEFAULT_TRANSFER_MODE) server_address
                          :: OpenWb filename :: acts ++ tail) !! (i - 2)%nat
                       = Some (RecvFrom data dest)
                    /\ int_from_bytes_big (slice_to 2 data) = OPCODE DATA
                    /\ pkt = ACK_packet (int_from_bytes_big (slice 2 4 data)))).
  { intros tail Htail i pkt dest Hi.
    destruct i as [|[|i]]; [left; by simplify_eq/=|done|]. right.
    cbn [lookup list_lookup] in Hi.
    apply lookup_app_Some in Hi as [Hi|[_ Hi]].
    2: { destruct Htail as [->| ->]; [done|]. by destruct (i - length acts)%nat. }
    destruct (Hsends _ _ _ Hi) as (data & Hge & Hrecv & Hop & Hpkt).
    exists data. split_and!; try done; [lia|].
    replace (S (S i) - 2)%nat with (S (S (i - 2))) by lia.
    cbn [lookup list_lookup]. by apply lookup_app_l_Some. }
  pose proof (Hall [] (or_introl eq_refl)) as Hnil. rewrite app_nil_r in Hnil.
  destruct o; cbn [fst app]; try exact Hnil.
  exact (Hall [FileClose] (or_intror eq_refl)).
Qed.

(** A server that sends the blocks in order, full ones and then a short
    one, from one address. *)
Lemma get_loop_data_stream blocks : forall st last rest source content,
  Forall (fun b : bytes => len b = 512) blocks ->
  len last < 512 ->
  0 <= expected_block_number st ->
  expected_block_number st + len blocks <= 32767 ->
  get_fs st !! filename = Some content ->
  exists t st1,
    get_loop filename st
      (data_stream (expected_block_number st) (blocks ++ [last]) source ++ rest)
    = (t, st1, Returned)
    /\ get_fs st1 = <[filename := content ++ concat blocks ++ last]> (get_fs st)
    /\ acks_sent t = seqZ (expected_block_number st) (len blocks + 1)
    /\ file_writes t = blocks ++ [last].
Proof.
  induction blocks as [|b blocks IH]; intros st last rest source content Hfull Hlast Hpos Hmax Hc.
  - change (len []) with 0 in Hmax. cbn [app data_stream get_loop].
    rewrite get_iter_expected_block by lia.
    destruct (Z.ltb_spec (len last) BLOCK_SIZE) as [_|Hge]; [|unfold BLOCK_SIZE in Hge; lia].
    eexists _, _. split; [reflexivity|]. cbn [get_fs concat app].
    split; [by apply file_write_insert|]. split; [|reflexivity].
    unfold acks_sent. cbn [omap list_omap]. rewrite sent_ack_ACK by lia.
    cbn [sent_ack]. change (len [] + 1) with 1.
    rewrite seqZ_cons by lia. by rewrite seqZ_nil by lia.
  - apply Forall_cons in Hfull as [Hb Hfull].
    assert (Hlen : len (b :: blocks) = len blocks + 1) by (unfold len; cbn [length]; lia).
    rewrite Hlen in Hmax.
    assert (Hb0 : 0 <= len blocks) by (unfold len; lia).
    cbn [app data_stream get_loop].
    rewrite get_iter_expected_block by (unfold len in *; lia).
    destruct (Z.ltb_spec (len b) BLOCK_SIZE) as [Hlt|_]; [unfold BLOCK_SIZE in Hlt; lia|].
    set (st' := GetState _ _).
    destruct (IH st' last rest source (content ++ b)) as (t & st1 & Hrun & Hfs & Hacks & Hw);
      try done; try (unfold st'; cbn [expected_block_number]; unfold len in *; lia).
    { unfold st'. cbn [get_fs]. by apply file_write_lookup_eq. }
    subst st'. cbn [expected_block_number get_fs] in Hrun, Hfs, Hacks.
    cbv beta iota zeta. rewrite Hrun. eexists _, _. split; [reflexivity|]. split_and!.
    + rewrite Hfs, (file_write_insert _ _ _ _ Hc), insert_insert_eq.
      cbn [concat]. by rewrite <- !app_assoc.
    + unfold acks_sent in *. cbn [app omap list_omap].
      rewrite sent_ack_ACK by lia. cbn [sent_ack]. rewrite Hacks, Hlen.
      rewrite (seqZ_cons (expected_block_number st)) by (unfold len; lia).
      do 2 f_equal; lia.
    + cbn. by rewrite <- Hw.
Qed.

(** X7.  A full DATA block whose number is not the expected one (a
    duplicate, or one out of order) is passed over: with or without it in
    the sequence of replies, the download ends the same way, with the same
    directory, the same blocks written and the same ACKs sent. *)
Theorem get_file_skips_stale_block
    server_address fs events1 events2 t1 st1 n blk source :
  get_loop filename (GetState 1 (open_wb filename fs)) events1 = (t1, st1, Blocked) ->
  0 <= n < 65536 ->
  n <> expected_block_number st1 ->
  len blk = 512 ->
  let '(t, fs', o) := get_file filename server_address fs (events1 ++ events2) in
  let '(t', fs'', o') :=
    get_file filename server_address fs
      (events1 ++ Datagram (DATA_packet n blk) source :: events2) in
  o' = o /\ fs'' = fs' /\ file_writes t' = file_writes t /\ acks_sent t' = acks_sent t.
Proof.
  intros Hrun Hn Hne Hlen.
  rewrite !get_file_unfold, !(get_loop_app _ _ _ _ _ _ Hrun). cbn [get_loop].
  assert (Hwhole : recvfrom 516 (DATA_packet n blk) = DATA_packet n blk)
    by (apply recvfrom_whole; rewrite len_DATA_packet; lia).
  rewrite get_iter_data; rewrite Hwhole.
  2: { unfold DATA_packet. by rewrite opcode_of_packet by (simpl; lia). }
  rewrite get_data_mismatch
    by (unfold DATA_packet; by rewrite number_of_packet by lia).
  unfold DATA_packet at 1. rewrite payload_of_packet.
  destruct (Z.ltb_spec (len blk) BLOCK_SIZE) as [Hlt|_]; [unfold BLOCK_SIZE in Hlt; lia|].
  destruct (get_loop filename st1 events2) as [[t2 st2] o].
  assert (Hw : forall tail,
            file_writes (t1 ++ (RecvFrom (DATA_packet n blk) source :: t2) ++ tail)
            = file_writes (t1 ++ t2 ++ tail)
            /\ acks_sent (t1 ++ (RecvFrom (DATA_packet n blk) source :: t2) ++ tail)
               = acks_sent (t1 ++ t2 ++ tail)).
  { intros tail. unfold file_writes, acks_sent. by rewrite !omap_app. }
  assert (Hw0 : file_writes (t1 ++ RecvFrom (DATA_packet n blk) source :: t2)
                = file_writes (t1 ++ t2)
                /\ acks_sent (t1 ++ RecvFrom (DATA_packet n blk) source :: t2)
                   = acks_sent (t1 ++ t2)).
  { unfold file_writes, acks_sent. by rewrite !omap_app. }
  assert (Hhead : forall l l',
            file_writes l = file_writes l' /\ acks_sent l = acks_sent l' ->
            file_writes ([SendTo (REQUEST_packet RRQ filename DEFAULT_TRANSFER_MODE)
                            server_address; OpenWb filename] ++ l)
            = file_writes ([SendTo (REQUEST_packet RRQ filename DEFAULT_TRANSFER_MODE)
                              server_address; OpenWb filename] ++ l')
            /\ acks_sent ([SendTo (REQUEST_packet RRQ filename DEFAULT_TRANSFER_MODE)
                             server_address; OpenWb filename] ++ l)
               = acks_sent ([SendTo (REQUEST_packet RRQ filename DEFAULT_TRANSFER_MODE)
                               server_address; OpenWb filename] ++ l')).
  { intros l l' [Hf Ha]. unfold file_writes, acks_sent in *.
    rewrite !omap_app. by rewrite Hf, Ha. }
  destruct o; (split; [done|]); (split; [done|]); apply Hhead;
    rewrite <- ?app_assoc; first [apply Hw | apply Hw0].
Qed.

(** X8.  A short DATA packet with the wrong block number ends the download
    as if it were complete: its payload is not written and it is not
    acknowledged, the completion message is printed, and the call returns
    with the file as it was at that point. *)
Theorem get_file_ends_on_stray_short_block
    server_address fs events1 events2 t1 st1 n blk source :
  get_loop filename (GetState 1 (open_wb filename fs)) events1 = (t1, st1, Blocked) ->
  0 <= n < 65536 ->
  n <> expected_block_number st1 ->
  len blk < 512 ->
  get_file filename server_address fs
    (events1 ++ Datagram (DATA_packet n blk) source :: events2)
  = ([SendTo (REQUEST_packet RRQ filename DEFAULT_TRANSFER_MODE) server_address;
      OpenWb filename]
       ++ t1
       ++ [RecvFrom (DATA_packet n blk) source; Print "File transfer completed.";
           FileClose],
     get_fs st1, Returned).
Proof.
  intros Hrun Hn Hne Hlen.
  rewrite get_file_unfold, (get_loop_app _ _ _ _ _ _ Hrun). cbn [get_loop].
  assert (Hwhole : recvfrom 516 (DATA_packet n blk) = DATA_packet n blk)
    by (apply recvfrom_whole; rewrite len_DATA_packet; lia).
  rewrite get_iter_data; rewrite Hwhole.
  2: { unfold DATA_packet. by rewrite opcode_of_packet by (simpl; lia). }
  rewrite get_data_mismatch
    by (unfold DATA_packet; by rewrite number_of_packet by lia).
  unfold DATA_packet at 1. rewrite payload_of_packet.
  destruct (Z.ltb_spec (len blk) BLOCK_SIZE) as [_|Hge]; [|unfold BLOCK_SIZE in Hge; lia].
  by rewrite <- app_assoc.
Qed.
End get_file_sends.

(** ** More on the upload *)

Lemma sent_payload_DATA n blk dest :
  0 <= n < 65536 -> sent_payload (SendTo (DATA_packet n blk) dest) = Some blk.
Proof.
  intros Hn. unfold sent_payload, DATA_packet.
  rewrite opcode_of_packet by (simpl; lia). by rewrite payload_of_packet.
Qed.

Lemma no_sends_no_data (l : list action) :
  Forall (fun a => sent_to a = None) l ->
  data_payloads l = [] /\ omap sent_data l = [].
Proof.
  induction 1 as [|a l Ha _ [IH1 IH2]]; [done|].
  unfold data_payloads in *. cbn [omap list_omap]. rewrite IH1, IH2.
  by destruct a.
Qed.

Lemma take_drop_length {A} n (l : list A) :
  take n l ++ drop (length (take n l)) l = l.
Proof.
  rewrite length_take. destruct (Nat.le_gt_cases n (length l)) as [Hle|Hgt].
  - rewrite Nat.min_l by done. apply take_drop.
  - rewrite Nat.min_r by lia. rewrite take_ge, drop_ge by lia. apply app_nil_r.
Qed.

(** What [file.read(512)] returns, and what is left after it. *)
Lemma file_read_split st :
  0 <= file_pos st ->
  slice_from (file_pos st) (file_content st)
  = file_read BLOCK_SIZE st
      ++ slice_from (file_pos st + len (file_read BLOCK_SIZE st)) (file_content st).
Proof.
  intros Hpos. unfold file_read, slice, slice_from, len.
  replace (Z.to_nat (file_pos st + BLOCK_SIZE - file_pos st)) with 512%nat
    by (unfold BLOCK_SIZE; lia).
  rewrite Z2Nat.inj_add, Nat2Z.id by lia.
  rewrite <- drop_drop. symmetry. apply take_drop_length.
Qed.

Lemma len_file_read st :
  0 <= file_pos st ->
  len (file_read BLOCK_SIZE st)
  = Z.min 512 (len (slice_from (file_pos st) (file_content st))).
Proof.
  intros Hpos. unfold file_read, slice, slice_from, len.
  replace (Z.to_nat (file_pos st + BLOCK_SIZE - file_pos st)) with 512%nat
    by (unfold BLOCK_SIZE; lia).
  rewrite length_take. lia.
Qed.

Lemma put_reply_matching_ack bn content pos source :
  0 <= bn + 1 < 65536 ->
  put_reply (PutState bn content pos) (Datagram (ACK_packet (bn + 1)) source)
  = ([RecvFrom (ACK_packet (bn + 1)) source], PutState (bn + 1) content pos).
Proof.
  intros Hn. unfold put_reply.
  rewrite recvfrom_whole by (vm_compute; discriminate).
  rewrite opcode_ACK_packet, number_ACK_packet by lia.
  cbn [block_number file_content file_pos]. by rewrite !Z.eqb_refl.
Qed.

Section put_file_more.
Variable filename : string.
Variable server_address : address.

(** The chunks sent are consecutive pieces of the file, from the cursor on. *)
Lemma put_loop_prefix events : forall st t st1 o,
  0 <= file_pos st -> 0 <= block_number st ->
  put_loop server_address st events = (t, st1, o) ->
  concat (data_payloads t) `prefix_of` slice_from (file_pos st) (file_content st)
  /\ Forall (fun d => len d <= 512) (data_payloads t)
  /\ slow_count (block_number st + 1) (omap sent_data t).
Proof.
  induction events as [|ev events IH]; intros st t st1 o Hpos Hbn; cbn [put_loop];
    (destruct (Z_le_gt_dec (block_number st + 1) 32767) as [Hle|Hgt];
     [rewrite put_send_Ok by lia; cbv beta iota zeta
     |rewrite put_send_raises by lia; cbv beta iota zeta;
      intros [= <- <- <-]; split_and!; [apply prefix_nil|constructor|done]]).
  - intros [= <- <- <-]. unfold data_payloads. cbn [omap list_omap].
    rewrite sent_payload_DATA, sent_data_DATA by lia.
    cbn [sent_payload sent_data concat slow_count].
    rewrite app_nil_r. split; [|split; [|by auto]].
    + rewrite (file_read_split st) by done. by apply prefix_app_r.
    + apply Forall_cons. split; [|constructor]. rewrite len_file_read by done. lia.
  - set (fb := file_read BLOCK_SIZE st). set (s1 := PutState _ _ _).
    destruct (put_recv s1 fb ev) as [[a2 s2] c] eqn:Hrecv.
    apply put_recv_spec in Hrecv as (Hsend & Hcontent & Hfpos & Hb & Hc).
    unfold s1 in Hcontent, Hfpos, Hb. cbn [block_number file_content file_pos] in *.
    destruct (no_sends_no_data _ Hsend) as [Hnop Hnod].
    assert (Hlenfb : 0 <= len fb <= 512)
      by (split; [unfold len; lia|unfold fb; rewrite len_file_read by done; lia]).
    assert (Hhead : data_payloads
                      ([FileRead fb; SendTo (DATA_packet (block_number st + 1) fb) server_address]
                         ++ a2) = [fb]
                    /\ omap sent_data
                         ([FileRead fb; SendTo (DATA_packet (block_number st + 1) fb) server_address]
                            ++ a2) = [block_number st + 1]).
    { unfold data_payloads in *. rewrite !omap_app, Hnop, Hnod. cbn [omap list_omap].
      rewrite sent_payload_DATA, sent_data_DATA by lia. done. }
    destruct Hhead as [Hhp Hhd].
    assert (Hstop : concat [fb] `prefix_of` slice_from (file_pos st) (file_content st)
                    /\ Forall (fun d => len d <= 512) [fb]
                    /\ slow_count (block_number st + 1) [block_number st + 1]).
    { cbn [concat slow_count]. rewrite app_nil_r. split; [|split; [|by auto]].
      - rewrite (file_read_split st) by done. by apply prefix_app_r.
      - apply Forall_cons. split; [lia|constructor]. }
    destruct (Z.ltb_spec (len fb) BLOCK_SIZE) as [Hshort|Hfull]; subst c.
    { intros [= <- <- <-]. change (?x :: ?y :: a2) with ([x; y] ++ a2).
      by rewrite Hhp, Hhd. }
    destruct (put_loop server_address s2 events) as [[a3 s3] o3] eqn:Hloop.
    intros [= <- <- <-].
    apply IH in Hloop as (Hpre & Hbound & Hslow); [|lia|destruct Hb as [Hb|[Hb _]]; lia].
    rewrite Hcontent, Hfpos in Hpre.
    change (?x :: ?y :: a2 ++ a3) with (([x; y] ++ a2) ++ a3).
    unfold data_payloads in *. rewrite !(omap_app _ (_ ++ a2) a3), Hhp, Hhd.
    cbn [app concat slow_count]. split_and!.
    + rewrite (file_read_split st) by done. by apply prefix_app.
    + apply Forall_cons. split; [lia|done].
    + done.
    + destruct Hb as [Hb|[Hb _]]; rewrite Hb in Hslow; [by left|by right].
Qed.

(** Whatever the replies, each turn consumes one and moves the cursor on
    by a block; after the short block the loop is left. *)
Lemma put_loop_finishes (n : nat) : forall st events,
  0 <= file_pos st -> 0 <= block_number st ->
  block_number st + Z.of_nat n + 1 <= 32767 ->
  len (slice_from (file_pos st) (file_content st)) / 512 = Z.of_nat n ->
  (n < length events)%nat ->
  exists t st1,
    put_loop server_address st events = (t, st1, Returned)
    /\ concat (data_payloads t) = slice_from (file_pos st) (file_content st)
    /\ length (data_payloads t) = S n.
Proof.
  induction n as [|n IH]; intros st events Hpos Hbn Hmax Hrem Hev;
    (destruct events as [|ev events]; [cbn in Hev; lia|]);
    cbn [put_loop]; rewrite put_send_Ok by lia; cbv beta iota zeta;
    set (fb := file_read BLOCK_SIZE st); set (s1 := PutState _ _ _);
    destruct (put_recv s1 fb ev) as [[a2 s2] c] eqn:Hrecv;
    apply put_recv_spec in Hrecv as (Hsend & Hcontent & Hfpos & Hb & Hc);
    unfold s1 in Hcontent, Hfpos, Hb; cbn [block_number file_content file_pos] in *;
    destruct (no_sends_no_data _ Hsend) as [Hnop _];
    pose proof (len_file_read st Hpos) as Hlenfb; fold fb in Hlenfb;
    pose proof (file_read_split st Hpos) as Hsplit; fold fb in Hsplit;
    assert (Hr : len (slice_from (file_pos st) (file_content st))
                 = len fb + len (slice_from (file_pos st + len fb) (file_content st)))
      by (rewrite Hsplit at 1; unfold len; rewrite length_app; lia);
    assert (Hhp : data_payloads
                    ([FileRead fb; SendTo (DATA_packet (block_number st + 1) fb) server_address]
                       ++ a2) = [fb])
      by (unfold data_payloads in *; rewrite omap_app, Hnop; cbn [omap list_omap];
          by rewrite sent_payload_DATA by lia).
  - assert (Hshort : len (slice_from (file_pos st) (file_content st)) < 512).
    { apply Z.div_small_iff in Hrem; [|lia]. unfold len in *. lia. }
    destruct (Z.ltb_spec (len fb) BLOCK_SIZE) as [_|Hge];
      [|unfold BLOCK_SIZE in Hge; lia].
    subst c. eexists _, _. split; [reflexivity|]. rewrite Hhp. split; [|done].
    cbn [concat]. rewrite app_nil_r, Hsplit.
    assert (Hnil : slice_from (file_pos st + len fb) (file_content st) = []).
    { apply length_zero_iff_nil. unfold len in *. lia. }
    by rewrite Hnil, app_nil_r.
  - assert (Hlong : 512 <= len (slice_from (file_pos st) (file_content st))).
    { destruct (Z_lt_le_dec (len (slice_from (file_pos st) (file_content st))) 512) as [Hlt|?];
        [|done].
      rewrite Z.div_small in Hrem by (unfold len in *; lia). lia. }
    destruct (Z.ltb_spec (len fb) BLOCK_SIZE) as [Hlt|_];
      [unfold BLOCK_SIZE in Hlt; lia|].
    subst c.
    assert (Hfb : len fb = 512) by lia.
    destruct (IH s2 events) as (t3 & s3 & Hrun & Hcat & Hcount).
    + lia.
    + destruct Hb as [Hb|[Hb _]]; lia.
    + destruct Hb as [Hb|[Hb _]]; lia.
    + rewrite Hcontent, Hfpos.
      replace (len (slice_from (file_pos st + len fb) (file_content st)))
        with (len (slice_from (file_pos st) (file_content st)) + (-1) * 512) by lia.
      rewrite Z.div_add by lia. lia.
    + cbn in Hev. lia.
    + rewrite Hrun. eexists _, _. split; [reflexivity|].
      rewrite !app_assoc.
      unfold data_payloads in *. rewrite (omap_app _ (_ ++ a2) t3), Hhp.
      cbn [app concat length]. rewrite Hcat, Hcontent, Hfpos, Hcount.
      by rewrite <- Hsplit.
Qed.
End put_file_more.

Section put_file_runs.
Variable filename : string.
Variable server_address : address.

Lemma put_file_trace fs events content :
  fs !! filename = Some content ->
  exists acts st1 o,
    put_loop server_address (PutState 0 content 0) events = (acts, st1, o)
    /\ (put_file filename server_address fs events).2 = o
    /\ data_payloads (put_file filename server_address fs events).1 = data_payloads acts
    /\ omap sent_data (put_file filename server_address fs events).1 = omap sent_data acts.
Proof.
  intros Hfile. unfold put_file. rewrite Hfile, send_wrq_Ok.
  destruct (put_loop _ _ _) as [[acts st1] o]. exists acts, st1, o.
  split; [done|]. unfold data_payloads.
  destruct o; cbn [fst snd app]; rewrite ?omap_app; cbn [omap list_omap];
    rewrite sent_data_REQUEST;
    change (sent_payload (SendTo (REQUEST_packet WRQ filename DEFAULT_TRANSFER_MODE)
                            server_address)) with (@None bytes);
    cbn; rewrite ?omap_app; cbn; by rewrite ?app_nil_r.
Qed.

(** Replies that acknowledge every block in turn. *)
Lemma put_loop_acked (n : nat) : forall st source rest,
  0 <= file_pos st -> 0 <= block_number st ->
  block_number st + Z.of_nat n + 1 <= 32767 ->
  len (slice_from (file_pos st) (file_content st)) / 512 = Z.of_nat n ->
  omap sent_data
    (put_loop server_address st
       (ack_stream (block_number st + 1) (Z.of_nat n + 1) source ++ rest)).1.1
  = seqZ (block_number st + 1) (Z.of_nat n + 1).
Proof.
  induction n as [|n IH]; intros st source rest Hpos Hbn Hmax Hrem;
    unfold ack_stream; rewrite seqZ_cons by lia; rewrite fmap_cons;
    cbn [app put_loop]; rewrite put_send_Ok by lia; cbv beta iota zeta;
    set (fb := file_read BLOCK_SIZE st);
    unfold put_recv;
    rewrite put_reply_matching_ack by lia;
    cbn [block_number file_content file_pos];
    pose proof (len_file_read st Hpos) as Hlenfb; fold fb in Hlenfb;
    pose proof (file_read_split st Hpos) as Hsplit; fold fb in Hsplit;
    assert (Hr : len (slice_from (file_pos st) (file_content st))
                 = len fb + len (slice_from (file_pos st + len fb) (file_content st)))
      by (rewrite Hsplit at 1; unfold len; rewrite length_app; lia).
  - assert (Hshort : len (slice_from (file_pos st) (file_content st)) < 512).
    { apply Z.div_small_iff in Hrem; [|lia]. unfold len in *. lia. }
    destruct (Z.ltb_spec (len fb) BLOCK_SIZE) as [_|Hge];
      [|unfold BLOCK_SIZE in Hge; lia].
    cbn [fst app omap list_omap]. rewrite sent_data_DATA by lia. cbn [sent_data].
    by rewrite seqZ_nil by lia.
  - assert (Hlong : 512 <= len (slice_from (file_pos st) (file_content st))).
    { destruct (Z_lt_le_dec (len (slice_from (file_pos st) (file_content st))) 512) as [Hlt|?];
        [|done].
      rewrite Z.div_small in Hrem by (unfold len in *; lia). lia. }
    destruct (Z.ltb_spec (len fb) BLOCK_SIZE) as [Hlt|_];
      [unfold BLOCK_SIZE in Hlt; lia|].
    set (s2 := PutState _ _ _).
    specialize (IH s2 source rest). unfold s2 in IH.
    cbn [block_number file_content file_pos] in IH.
    replace (Z.succ (block_number st + 1)) with (block_number st + 1 + 1) by lia.
    replace (Z.pred (Z.of_nat (S n) + 1)) with (Z.of_nat n + 1) by lia.
    unfold ack_stream in IH. fold s2 in IH |- *.
    destruct (put_loop server_address s2 _) as [[a3 s3] o3].
    cbn [fst] in IH |- *. cbn [app omap list_omap].
    rewrite sent_data_DATA by lia. cbn [sent_data]. rewrite IH; [done|lia..|].
    replace (len (slice_from (file_pos st + len fb) (file_content st)))
      with (len (slice_from (file_pos st) (file_content st)) + (-1) * 512) by lia.
    rewrite Z.div_add by lia. lia.
Qed.

(** X9.  An upload sends the file front to back and never the same bytes
    twice: for any replies, the payloads of the DATA packets sent so far,
    put end to end, are a prefix of the file, and none is longer than 512
    bytes. *)
Theorem put_file_sends_file_in_order fs events content :
  fs !! filename = Some content ->
  concat (data_payloads (put_file filename server_address fs events).1)
    `prefix_of` content
  /\ Forall (fun d => len d <= 512)
            (data_payloads (put_file filename server_address fs events).1).
Proof.
  intros Hfile.
  destruct (put_file_trace fs events content Hfile) as (acts & st1 & o & Hloop & _ & -> & _).
  apply put_loop_prefix in Hloop as (Hpre & Hbound & _); [|done..].
  split; [exact Hpre | exact Hbound].
Qed.

(** X10.  The block numbers of the DATA packets an upload sends, for any
    replies: the first is 1 and each next one is the same number again or
    one more.  A number is never skipped and never goes down. *)
Theorem put_file_numbers_step_slowly fs events :
  slow_count 1 (omap sent_data (put_file filename server_address fs events).1).
Proof.
  destruct (fs !! filename) as [content|] eqn:Hfile.
  - destruct (put_file_trace fs events content Hfile) as (acts & st1 & o & Hloop & _ & _ & ->).
    apply put_loop_prefix in Hloop as (_ & _ & Hslow); done.
  - unfold put_file. rewrite Hfile. exact I.
Qed.

(** X11.  An upload ends after as many replies as the file has blocks,
    whatever the replies are.  For a file of up to 32766 full blocks plus a
    rest, once [len(content) // 512 + 1] replies have come (ACKs or not,
    timeouts included) the call has returned, having sent that many DATA
    packets whose payloads make up the whole file. *)
Theorem put_file_finishes_whatever_the_replies fs events content :
  fs !! filename = Some content ->
  len content / 512 + 1 <= 32767 ->
  len content / 512 < len events ->
  (put_file filename server_address fs events).2 = Returned
  /\ concat (data_payloads (put_file filename server_address fs events).1) = content
  /\ len (data_payloads (put_file filename server_address fs events).1)
     = len content / 512 + 1.
Proof.
  intros Hfile Hmax Hev.
  assert (Hdiv : 0 <= len content / 512) by (apply Z.div_pos; unfold len; lia).
  destruct (put_file_trace fs events content Hfile) as (acts & st1 & o & Hloop & -> & -> & _).
  destruct (put_loop_finishes server_address (Z.to_nat (len content / 512))
              (PutState 0 content 0) events) as (t & st2 & Hrun & Hcat & Hcount);
    cbn [block_number file_content file_pos]; try lia.
  { by rewrite Z2Nat.id by lia. }
  { unfold len in *. lia. }
  rewrite Hrun in Hloop. injection Hloop as <- <- <-.
  split; [done|]. split; [exact Hcat|]. unfold len at 1. rewrite Hcount. lia.
Qed.

(** X12.  A whole upload.  When the server acknowledges every DATA packet
    with its number, the call returns after the last block, the DATA packets
    are numbered 1, 2, ... up to [len(content) // 512 + 1], and their
    payloads put end to end are the file. *)
Theorem put_file_uploads fs content source rest :
  fs !! filename = Some content ->
  len content / 512 + 1 <= 32767 ->
  let events := ack_stream 1 (len content / 512 + 1) source ++ rest in
  (put_file filename server_address fs events).2 = Returned
  /\ omap sent_data (put_file filename server_address fs events).1
     = seqZ 1 (len content / 512 + 1)
  /\ concat (data_payloads (put_file filename server_address fs events).1) = content.
Proof.
  intros Hfile Hmax events.
  assert (Hdiv : 0 <= len content / 512) by (apply Z.div_pos; unfold len; lia).
  destruct (put_file_trace fs events content Hfile) as (acts & st1 & o & Hloop & -> & -> & ->).
  destruct (put_loop_finishes server_address (Z.to_nat (len content / 512))
              (PutState 0 content 0) events) as (t & st2 & Hrun & Hcat & _);
    cbn [block_number file_content file_pos]; try lia.
  { by rewrite Z2Nat.id by lia. }
  { unfold events, ack_stream. rewrite length_app, length_fmap, length_seqZ. lia. }
  pose proof (put_loop_acked (Z.to_nat (len content / 512))
                (PutState 0 content 0) source rest) as Hnum.
  cbn [block_number file_content file_pos] in Hnum.
  rewrite Z2Nat.id in Hnum by lia. change (0 + 1) with 1 in Hnum. fold events in Hnum.
  rewrite Hloop in Hnum. cbn [fst] in Hnum.
  rewrite Hrun in Hloop. injection Hloop as <- <- <-.
  split; [done|]. split; [|exact Hcat].
  apply Hnum; try lia. reflexivity.
Qed.
End put_file_runs.

(** ** ERROR replies and the exit status *)

Lemma received_header a b c d (rest : bytes) :
  slice_to 2 (recvfrom 516 (a :: b :: c :: d :: rest)) = [a; b]
  /\ slice 2 4 (recvfrom 516 (a :: b :: c :: d :: rest)) = [c; d].
Proof. split; reflexivity. Qed.

Lemma received_ERROR_packet code msg :
  0 <= code < 65536 ->
  int_from_bytes_big (slice_to 2 (recvfrom 516 (ERROR_packet code msg))) = OPCODE ERROR
  /\ int_from_bytes_big (slice 2 4 (recvfrom 516 (ERROR_packet code msg))) = code.
Proof.
  intros Hcode. unfold ERROR_packet.
  destruct (received_header (byte_of_Z (OPCODE ERROR / 256)) (byte_of_Z (OPCODE ERROR))
              (byte_of_Z (code / 256)) (byte_of_Z code)
              (encode msg ++ [Byte.x00])) as [H1 H2].
  change (two_bytes (OPCODE ERROR) ++ two_bytes code ++ encode msg ++ [Byte.x00])
    with (byte_of_Z (OPCODE ERROR / 256) :: byte_of_Z (OPCODE ERROR)
            :: byte_of_Z (code / 256) :: byte_of_Z code :: encode msg ++ [Byte.x00]).
  rewrite H1, H2. split; [reflexivity|].
  by apply (int_from_two_bytes code).
Qed.

(** X13.  An ERROR packet whose code is not in the catalogue, at any point
    of a download: the lookup raises [KeyError] with that code, nothing is
    printed, and the local file is neither closed nor removed; it stays as
    the blocks accepted so far left it. *)
Theorem get_file_uncatalogued_error
    filename server_address fs events1 events2 t1 st1 code msg source :
  get_loop filename (GetState 1 (open_wb filename fs)) events1 = (t1, st1, Blocked) ->
  7 < code < 65536 ->
  get_file filename server_address fs
    (events1 ++ Datagram (ERROR_packet code msg) source :: events2)
  = ([SendTo (REQUEST_packet RRQ filename DEFAULT_TRANSFER_MODE) server_address;
      OpenWb filename]
       ++ t1 ++ [RecvFrom (recvfrom 516 (ERROR_packet code msg)) source],
     get_fs st1, Uncaught (KeyError code)).
Proof.
  intros Hrun Hcode.
  destruct (received_ERROR_packet code msg ltac:(lia)) as [Hop Hc].
  rewrite get_file_unfold, (get_loop_app _ _ _ _ _ _ Hrun). cbn [get_loop].
  rewrite get_iter_error by done. rewrite get_error_uncatalogued by (rewrite Hc; lia).
  by rewrite Hc.
Qed.

Lemma get_file_uncatalogued_error_witness :
  get_file "f" example_server ∅
    ([] ++ Datagram (ERROR_packet 8 "no") example_peer :: [])
  = ([SendTo (REQUEST_packet RRQ "f" DEFAULT_TRANSFER_MODE) example_server;
      OpenWb "f"]
       ++ [] ++ [RecvFrom (recvfrom 516 (ERROR_packet 8 "no")) example_peer],
     get_fs (GetState 1 (open_wb "f" ∅)), Uncaught (KeyError 8)).
Proof.
  apply (get_file_uncatalogued_error "f" example_server ∅ [] [] []
           (GetState 1 (open_wb "f" ∅)) 8 "no" example_peer).
  - reflexivity.
  - lia.
Defined.

(** ** Instances of the properties above *)

Lemma get_file_skips_stale_block_witness :
  let events2 := [Datagram (DATA_packet 1 [Byte.x41]) example_peer] in
  let '(t, fs', o) := get_file "f" example_server ∅ ([] ++ events2) in
  let '(t', fs'', o') :=
    get_file "f" example_server ∅
      ([] ++ Datagram (DATA_packet 2 full_block) example_peer :: events2) in
  o' = o /\ fs'' = fs' /\ file_writes t' = file_writes t /\ acks_sent t' = acks_sent t.
Proof.
  apply (get_file_skips_stale_block "f" example_server ∅ []
           [Datagram (DATA_packet 1 [Byte.x41]) example_peer] []
           (GetState 1 (open_wb "f" ∅)) 2 full_block example_peer).
  - reflexivity.
  - lia.
  - cbn [expected_block_number]. lia.
  - vm_compute. reflexivity.
Defined.

Lemma get_file_ends_on_stray_short_block_witness :
  get_file "f" example_server ∅
    ([] ++ Datagram (DATA_packet 7 [Byte.x41]) example_peer :: [])
  = ([SendTo (REQUEST_packet RRQ "f" DEFAULT_TRANSFER_MODE) example_server;
      OpenWb "f"]
       ++ []
       ++ [RecvFrom (DATA_packet 7 [Byte.x41]) example_peer;
           Print "File transfer completed."; FileClose],
     get_fs (GetState 1 (open_wb "f" ∅)), Returned).
Proof.
  apply (get_file_ends_on_stray_short_block "f" example_server ∅ [] [] []
           (GetState 1 (open_wb "f" ∅)) 7 [Byte.x41] example_peer).
  - reflexivity.
  - lia.
  - cbn [expected_block_number]. lia.
  - vm_compute. reflexivity.
Defined.

Lemma put_file_sends_file_in_order_witness :
  let fs : gmap string bytes := {[ "f"%string := full_block ++ [Byte.x41] ]} in
  concat (data_payloads (put_file "f" example_server fs [Timeout]).1)
    `prefix_of` (full_block ++ [Byte.x41])
  /\ Forall (fun d => len d <= 512)
            (data_payloads (put_file "f" example_server fs [Timeout]).1).
Proof.
  apply (put_file_sends_file_in_order "f" example_server
           {[ "f"%string := full_block ++ [Byte.x41] ]} [Timeout]
           (full_block ++ [Byte.x41])).
  vm_compute. reflexivity.
Defined.

Lemma put_file_finishes_whatever_the_replies_witness :
  let fs : gmap string bytes := {[ "f"%string := full_block ++ [Byte.x41] ]} in
  let events := [Timeout; Datagram [Byte.x00; Byte.x09] example_peer] in
  (put_file "f" example_server fs events).2 = Returned
  /\ concat (data_payloads (put_file "f" example_server fs events).1)
     = full_block ++ [Byte.x41]
  /\ len (data_payloads (put_file "f" example_server fs events).1)
     = len (full_block ++ [Byte.x41]) / 512 + 1.
Proof.
  apply (put_file_finishes_whatever_the_replies "f" example_server
           {[ "f"%string := full_block ++ [Byte.x41] ]}
           [Timeout; Datagram [Byte.x00; Byte.x09] example_peer]
           (full_block ++ [Byte.x41])).
  - vm_compute. reflexivity.
  - vm_compute. discriminate.
  - vm_compute. reflexivity.
Defined.

Lemma put_file_uploads_witness :
  let fs : gmap string bytes := {[ "f"%string := full_block ++ [Byte.x41] ]} in
  let events :=
    ack_stream 1 (len (full_block ++ [Byte.x41]) / 512 + 1) example_peer ++ [] in
  (put_file "f" example_server fs events).2 = Returned
  /\ omap sent_data (put_file "f" example_server fs events).1
     = seqZ 1 (len (full_block ++ [Byte.x41]) / 512 + 1)
  /\ concat (data_payloads (put_file "f" example_server fs events).1)
     = full_block ++ [Byte.x41].
Proof.
  apply (put_file_uploads "f" example_server
           {[ "f"%string := full_block ++ [Byte.x41] ]}
           (full_block ++ [Byte.x41]) example_peer []).
  - vm_compute. reflexivity.
  - vm_compute. discriminate.
Defined.

(** ** Oversized datagrams *)

Lemma recvfrom_DATA_packet n (blk : bytes) :
  recvfrom 516 (DATA_packet n blk) = DATA_packet n (slice_to 512 blk).
Proof. reflexivity. Qed.

(** X15.  A DATA datagram that carries more than 512 payload bytes is cut
    by [recvfrom(516)]: when it has the expected number, only its first 512
    payload bytes are written, it is acknowledged, and it counts as a full
    block, so the loop goes on. *)
Theorem get_iter_cuts_long_block filename st blk source :
  0 <= expected_block_number st <= 32767 ->
  512 < len blk ->
  get_iter filename st (Datagram (DATA_packet (expected_block_number st) blk) source)
  = ([RecvFrom (DATA_packet (expected_block_number st) (slice_to 512 blk)) source;
      FileWrite (slice_to 512 blk);
      SendTo (ACK_packet (expected_block_number st)) source],
     GetState (expected_block_number st + 1)
              (file_write filename (slice_to 512 blk) (get_fs st)),
     Continue).
Proof.
  intros Hrange Hlong.
  assert (Hlen : len (slice_to 512 blk) = 512).
  { unfold len, slice_to in *. rewrite length_take. lia. }
  pose proof (get_iter_expected_block filename st (slice_to 512 blk) source Hrange
                ltac:(lia)) as Hcut.
  rewrite Hlen in Hcut. change (512 <? BLOCK_SIZE) with false in Hcut.
  rewrite <- Hcut. unfold get_iter.
  by rewrite recvfrom_DATA_packet, (recvfrom_whole (DATA_packet _ (slice_to 512 blk)))
    by (rewrite len_DATA_packet; lia).
Qed.

Lemma get_iter_cuts_long_block_witness :
  get_iter "f" (GetState 1 ∅)
    (Datagram (DATA_packet (expected_block_number (GetState 1 ∅))
                 (full_block ++ [Byte.x41])) example_peer)
  = ([RecvFrom (DATA_packet (expected_block_number (GetState 1 ∅))
                  (slice_to 512 (full_block ++ [Byte.x41]))) example_peer;
      FileWrite (slice_to 512 (full_block ++ [Byte.x41]));
      SendTo (ACK_packet (expected_block_number (GetState 1 ∅))) example_peer],
     GetState (expected_block_number (GetState 1 ∅) + 1)
              (file_write "f" (slice_to 512 (full_block ++ [Byte.x41]))
                 (get_fs (GetState 1 ∅))),
     Continue).
Proof.
  apply (get_iter_cuts_long_block "f" (GetState 1 ∅) (full_block ++ [Byte.x41])
           example_peer).
  - cbn [expected_block_number]. lia.
  - vm_compute. reflexivity.
Defined.

Lemma get_file_sends_rrq_then_acks_witness :
  let t := (get_file "f" example_server ∅
              [Datagram (DATA_packet 1 [Byte.x41]) example_peer]).1.1 in
  t !! 4%nat = Some (SendTo (ACK_packet 1) example_peer)
  /\ ((4%nat = 0%nat
       /\ ACK_packet 1 = REQUEST_packet RRQ "f" DEFAULT_TRANSFER_MODE
       /\ example_peer = example_server)
      \/ (exists data,
            (3 <= 4)%nat
            /\ t !! (4 - 2)%nat = Some (RecvFrom data example_peer)
            /\ int_from_bytes_big (slice_to 2 data) = OPCODE DATA
            /\ ACK_packet 1 = ACK_packet (int_from_bytes_big (slice 2 4 data)))).
Proof.
  cbv zeta. split; [vm_compute; reflexivity|].
  apply (get_file_sends_rrq_then_acks "f" example_server ∅
           [Datagram (DATA_packet 1 [Byte.x41]) example_peer]
           4%nat (ACK_packet 1) example_peer).
  vm_compute. reflexivity.
Defined.

(** ** An upload that waits for a reply *)

Lemma trace_app_let {S} (run : list action * S * outcome) (pre t : list action) :
  (let '(acts, st, o) := (let '(t2, s2, o) := run in (t ++ t2, s2, o)) in
   (pre ++ acts, st, o))
  = (let '(t2, s2, o) := run in ((pre ++ t) ++ t2, s2, o)).
Proof. destruct run as [[t2 s2] o]. by rewrite app_assoc. Qed.

Section put_loop_waits.
Variable server_address : address.



(** Replies that acknowledge [n] full blocks in turn. *)
Lemma put_loop_acked_turns (n : nat) : forall st source rest,
  0 <= file_pos st -> 0 <= block_number st ->
  block_number st + Z.of_nat n <= 32767 ->
  512 * Z.of_nat n <= len (slice_from (file_pos st) (file_content st)) ->
  exists t,
    put_loop server_address st
      (ack_stream (block_number st + 1) (Z.of_nat n) source ++ rest)
    = let '(t2, s3, o) :=
        put_loop server_address
          (PutState (block_number st + Z.of_nat n) (file_content st)
                    (file_pos st + 512 * Z.of_nat n)) rest in
      (t ++ t2, s3, o).
Proof.
  induction n as [|n IH]; intros st source rest Hpos Hbn Hmax Hrem.
  - exists []. unfold ack_stream. rewrite seqZ_nil by done. cbn [fmap list_fmap app].
    change (Z.of_nat 0) with 0. rewrite Z.mul_0_r, !Z.add_0_r.
    destruct st as [bn content pos]. cbn [block_number file_content file_pos].
    by destruct (put_loop server_address _ rest) as [[t2 s3] o].
  - unfold ack_stream. rewrite seqZ_cons by lia. rewrite fmap_cons.
    cbn [app put_loop]. rewrite put_send_Ok by lia. cbv beta iota zeta.
    set (fb := file_read BLOCK_SIZE st).
    pose proof (len_file_read st Hpos) as Hlenfb. fold fb in Hlenfb.
    pose proof (file_read_split st Hpos) as Hsplit. fold fb in Hsplit.
    assert (Hfb : len fb = 512) by lia.
    assert (Hr : len (slice_from (file_pos st) (file_content st))
                 = len fb + len (slice_from (file_pos st + len fb) (file_content st)))
      by (rewrite Hsplit at 1; unfold len; rewrite length_app; lia).
    unfold put_recv. rewrite put_reply_matching_ack by lia.
    destruct (Z.ltb_spec (len fb) BLOCK_SIZE) as [Hlt|_];
      [unfold BLOCK_SIZE in Hlt; lia|].
    rewrite Hfb.
    destruct (IH (PutState (block_number st + 1) (file_content st) (file_pos st + 512))
                 source rest) as [t Ht];
      cbn [block_number file_content file_pos]; try lia.
    { rewrite <- Hfb. lia. }
    cbn [block_number file_content file_pos] in Ht. unfold ack_stream in Ht.
    replace (Z.succ (block_number st + 1)) with (block_number st + 1 + 1) by lia.
    replace (Z.pred (Z.of_nat (S n))) with (Z.of_nat n) by lia.
    rewrite Ht.
    replace (block_number st + 1 + Z.of_nat n) with (block_number st + Z.of_nat (S n)) by lia.
    replace (file_pos st + 512 + 512 * Z.of_nat n)
      with (file_pos st + 512 * Z.of_nat (S n)) by lia.
    exists (FileRead fb
              :: SendTo (DATA_packet (block_number st + 1) fb) server_address
              :: RecvFrom (ACK_packet (block_number st + 1)) source :: t).
    apply (trace_app_let (put_loop server_address _ rest)
             [FileRead fb; SendTo (DATA_packet (block_number st + 1) fb) server_address;
              RecvFrom (ACK_packet (block_number st + 1)) source] t).
Qed.
End put_loop_waits.




(** ** Block 32768 *)

Section block_number_bounds.
Variable filename : string.
Variable server_address : address.

(** The expected block number never gets past 32768: the ACK of block 32768
    cannot be packed. *)
Lemma get_iter_bound st ev acts st1 c :
  expected_block_number st <= 32768 ->
  get_iter filename st ev = (acts, st1, c) ->
  expected_block_number st1 <= 32768.
Proof.
  intros Hle. destruct ev as [payload server|];
    [|intros [= <- <- <-]; cbn [expected_block_number]; lia].
  unfold get_iter. set (data := recvfrom 516 payload).
  destruct (Z.eqb_spec (int_from_bytes_big (slice_to 2 data)) (OPCODE DATA)) as [Hop|Hop].
  - destruct (Z.eq_dec (int_from_bytes_big (slice 2 4 data)) (expected_block_number st))
      as [Heq|Hne].
    + destruct (Z_le_gt_dec (expected_block_number st) 32767) as [Hok|Hgt].
      * rewrite get_data_match by done. cbv zeta.
        destruct (_ <? _); intros [= <- <- <-]; cbn [expected_block_number]; lia.
      * rewrite get_data_match_raises by lia.
        intros [= <- <- <-]. cbn [expected_block_number]. lia.
    + rewrite get_data_mismatch by done. destruct (_ <? _); by intros [= <- <- <-].
  - destruct (Z.eqb_spec (int_from_bytes_big (slice_to 2 data)) (OPCODE ERROR)) as [Her|Her];
      [|by intros [= <- <- <-]].
    unfold get_error. destruct (ERROR_CODE !! _); intros [= <- <- <-]; [|done].
    cbn [expected_block_number]. lia.
Qed.

Lemma get_loop_bound events : forall st t st1 o,
  expected_block_number st <= 32768 ->
  get_loop filename st events = (t, st1, o) ->
  expected_block_number st1 <= 32768.
Proof.
  induction events as [|ev events IH]; intros st t st1 o Hle; cbn [get_loop].
  - by intros [= <- <- <-].
  - destruct (get_iter filename st ev) as [[a1 s1] c] eqn:Hit.
    apply get_iter_bound in Hit; [|done].
    destruct c; try (intros [= <- <- <-]; done).
    destruct (get_loop filename s1 events) as [[a2 s2] o2] eqn:Hloop.
    intros [= <- <- <-]. by eapply IH.
Qed.

(** The ACKs of any download are numbered 1 to some [k] below 32768. *)
Lemma get_file_acks_bounded fs events :
  exists k, 0 <= k <= 32767
            /\ acks_sent (get_file filename server_address fs events).1.1 = seqZ 1 k.
Proof.
  rewrite get_file_unfold.
  destruct (get_loop _ _ _) as [[acts st] o] eqn:Hloop.
  assert (Hpos : 0 <= expected_block_number (GetState 1 (open_wb filename fs)))
    by (cbn [expected_block_number]; lia).
  assert (Hmax : expected_block_number (GetState 1 (open_wb filename fs)) <= 32768)
    by (cbn [expected_block_number]; lia).
  pose proof (get_loop_acks filename _ _ _ _ _ Hpos Hloop) as [Hge Hacks].
  pose proof (get_loop_bound _ _ _ _ _ Hmax Hloop) as Hle.
  cbn [expected_block_number] in Hge, Hacks.
  exists (expected_block_number st - 1). split; [lia|].
  assert (Hall : forall tail,
            tail = [] \/ tail = [FileClose] ->
            acks_sent (SendTo (REQUEST_packet RRQ filename DEFAULT_TRANSFER_MODE)
                              server_address :: OpenWb filename :: acts ++ tail)
            = seqZ 1 (expected_block_number st - 1)).
  { intros tail Htail. unfold acks_sent in *. cbn [omap list_omap].
    rewrite sent_ack_REQUEST. change (sent_ack (OpenWb filename)) with (@None Z).
    cbv beta iota. rewrite omap_app, Hacks.
    destruct Htail as [-> | ->]; cbn [omap list_omap sent_ack]; by rewrite app_nil_r. }
  pose proof (Hall [] (or_introl eq_refl)) as Hnil. rewrite app_nil_r in Hnil.
  destruct o; cbn [fst app]; try exact Hnil.
  exact (Hall [FileClose] (or_intror eq_refl)).
Qed.

Lemma sent_data_turn fb n :
  0 <= n < 65536 ->
  omap sent_data [FileRead fb; SendTo (DATA_packet n fb) server_address] = [n].
Proof.
  intros Hn. cbn [omap list_omap]. rewrite sent_data_DATA by done. reflexivity.
Qed.

(** Every DATA packet of an upload is numbered from 1 to 32767. *)
Lemma put_loop_numbers events : forall st t st1 o,
  0 <= block_number st ->
  put_loop server_address st events = (t, st1, o) ->
  Forall (fun n => 1 <= n <= 32767) (omap sent_data t).
Proof.
  induction events as [|ev events IH]; intros st t st1 o Hpos;
    cbn [put_loop];
    (destruct (Z_le_gt_dec (block_number st + 1) 32767) as [Hle|Hgt];
     [rewrite put_send_Ok by lia; cbv beta iota zeta
     |rewrite put_send_raises by lia; cbv beta iota zeta;
      intros [= <- <- <-]; constructor]).
  - intros [= <- <- <-]. rewrite sent_data_turn by lia.
    apply Forall_cons; split; [lia|constructor].
  - set (fb := file_read BLOCK_SIZE st). set (s1 := PutState _ _ _).
    destruct (put_recv s1 fb ev) as [[a2 s2] c] eqn:Hrecv.
    apply put_recv_spec in Hrecv as (Hsend & _ & _ & Hbn & _).
    unfold s1 in Hbn. cbn [block_number] in Hbn.
    apply no_sends_no_data in Hsend as [_ Hnone].
    set (sent := [FileRead fb; SendTo (DATA_packet (block_number st + 1) fb) server_address]).
    assert (Hhead : Forall (fun n => 1 <= n <= 32767) (omap sent_data (sent ++ a2))).
    { rewrite omap_app, Hnone, app_nil_r. unfold sent. rewrite sent_data_turn by lia.
      apply Forall_cons; split; [lia|constructor]. }
    destruct c; try (intros [= <- <- <-]; exact Hhead).
    destruct (put_loop server_address s2 events) as [[a3 s3] o3] eqn:Hloop.
    intros [= <- <- <-].
    change (_ :: _ :: a2 ++ a3) with ((sent ++ a2) ++ a3).
    rewrite omap_app. apply Forall_app. split; [exact Hhead|].
    eapply IH; [|exact Hloop]. destruct Hbn as [Hb|[Hb _]]; lia.
Qed.

Lemma put_file_numbers fs events :
  Forall (fun n => 1 <= n <= 32767)
         (omap sent_data (put_file filename server_address fs events).1).
Proof.
  unfold put_file. destruct (fs !! filename) as [content|]; [|constructor].
  rewrite send_wrq_Ok.
  destruct (put_loop _ _ _) as [[acts st] o] eqn:Hloop.
  apply put_loop_numbers in Hloop; [|cbn [block_number]; lia].
  assert (Hall : forall tail,
            tail = [] \/ tail = [FileClose] ->
            Forall (fun n => 1 <= n <= 32767)
                   (omap sent_data
                      ([SendTo (REQUEST_packet WRQ filename DEFAULT_TRANSFER_MODE)
                               server_address] ++ OpenRb filename :: acts ++ tail))).
  { intros tail Htail. cbn [app omap list_omap]. rewrite sent_data_REQUEST.
    change (sent_data (OpenRb filename)) with (@None Z). cbv beta iota.
    rewrite omap_app.
    destruct Htail as [-> | ->]; cbn [omap list_omap sent_data]; by rewrite app_nil_r. }
  pose proof (Hall [] (or_introl eq_refl)) as Hnil. rewrite app_nil_r in Hnil.
  destruct o; cbn [fst]; try exact Hnil.
  exact (Hall [FileClose] (or_intror eq_refl)).
Qed.

(** A download that has acknowledged the full blocks 1 to 32767 and receives
    block 32768: the ACKs sent are those 32767, and the call ends with
    [struct.error]. *)
Lemma get_file_block_32768_acks fs source blk rest :
  len blk <= 512 ->
  let '(t, _, o) :=
    get_file filename server_address fs
      (full_blocks 1 32767 source ++ Datagram (DATA_packet 32768 blk) source :: rest) in
  o = Uncaught StructError /\ acks_sent t = seqZ 1 32767.
Proof.
  intros Hlen. rewrite get_file_unfold.
  remember (seqZ 1 32767) as target eqn:Htarget.
  destruct (get_loop _ _ _) as [[acts st] o] eqn:Hloop.
  assert (Hpos : 0 <= expected_block_number (GetState 1 (open_wb filename fs)))
    by (cbn [expected_block_number]; lia).
  pose proof (get_loop_acks filename _ _ _ _ _ Hpos Hloop) as [_ Hacks]. clear Hpos.
  destruct (get_loop_full_blocks filename (Z.to_nat 32767) source
              (Datagram (DATA_packet 32768 blk) source :: rest)
              (GetState 1 (open_wb filename fs))) as (t & st1 & Hexp & Hrun).
  { simpl. lia. }
  { cbn [expected_block_number]. rewrite Z2Nat.id; lia. }
  cbn [expected_block_number] in Hexp, Hrun, Hacks.
  rewrite Z2Nat.id in Hexp, Hrun by lia. rewrite Hrun in Hloop.
  assert (Hwhole : recvfrom 516 (DATA_packet 32768 blk) = DATA_packet 32768 blk)
    by (apply recvfrom_whole; rewrite len_DATA_packet; lia).
  cbn [get_loop] in Hloop.
  rewrite get_iter_data in Hloop; rewrite Hwhole in *; [|reflexivity].
  rewrite get_data_match_raises in Hloop; [|by rewrite Hexp|lia].
  injection Hloop as <- <- <-. cbn [expected_block_number] in Hacks.
  rewrite Hexp in Hacks. change (1 + 32767 - 1) with 32767 in Hacks.
  cbv beta iota zeta. split; [done|].
  unfold acks_sent in *. rewrite omap_app.
  cbn [omap list_omap]. rewrite sent_ack_REQUEST. cbn [app sent_ack].
  subst target. exact Hacks.
Qed.
End block_number_bounds.

(** C8 (failing run).  Block numbers do not reach 65535 and do not wrap:
    number 32768, an unsigned 16-bit value, cannot be put into an ACK or a
    DATA packet, [pack] raises.  A download that is sent the full blocks 1,
    2, ... in order acknowledges blocks 1 to 32767 and stops with
    [struct.error] at block 32768, whatever follows; an upload of a file of
    32767 full blocks whose blocks are all acknowledged stops with
    [struct.error] when it is to send block 32768.  And whatever the
    replies, the ACKs of a download are numbered 1 to some [k <= 32767] and
    every DATA packet of an upload carries a number from 1 to 32767: no
    packet is numbered 0 or above 32767. *)
Theorem block_32768_cannot_be_sent filename server_address fs source :
  pack_ack 32768 = Raise StructError
  /\ pack_data 32768 [] = Raise StructError
  /\ (exists t fs1,
        get_file filename server_address fs
          (full_blocks 1 32767 source
             ++ Datagram (DATA_packet 32768 full_block) source
             :: full_blocks 32769 32767 source)
        = (t, fs1, Uncaught StructError)
        /\ acks_sent t = seqZ 1 32767)
  /\ (put_file filename server_address (<[filename := long_file]> fs)
        (ack_stream 1 32767 source)).2
     = Uncaught StructError
  /\ (forall events,
        exists k, 0 <= k <= 32767
                  /\ acks_sent (get_file filename server_address fs events).1.1
                     = seqZ 1 k)
  /\ (forall events,
        Forall (fun n => 1 <= n <= 32767)
               (omap sent_data (put_file filename server_address fs events).1)).
Proof.
  split; [reflexivity|]. split; [reflexivity|]. split; [|split; [|split]].
  - pose proof (get_file_block_32768_acks filename server_address fs source
                  full_block (full_blocks 32769 32767 source)) as Hrun.
    destruct (get_file _ _ _ _) as [[t fs1] o].
    destruct Hrun as [-> Hacks]; [vm_compute; discriminate|].
    by exists t, fs1.
  - unfold put_file. rewrite lookup_insert_eq, send_wrq_Ok.
    destruct (put_loop_acked_turns server_address (Z.to_nat 32767)
                (PutState 0 long_file 0) source []) as [t Ht];
      cbn [block_number file_content file_pos]; try lia.
    { unfold len, slice_from, long_file. rewrite length_drop, length_replicate. lia. }
    cbn [block_number file_content file_pos] in Ht.
    rewrite Z2Nat.id, app_nil_r in Ht by lia. change (0 + 1) with 1 in Ht.
    rewrite Ht. cbn [put_loop].
    rewrite put_send_raises by (cbn [block_number]; lia). reflexivity.
  - intros events. apply get_file_acks_bounded.
  - intros events. apply put_file_numbers.
Qed.

(** ** Datagrams of any shape *)



(** ** A rejected download of a file that is already there *)

(** C10 (failing run).  With a local file of the requested name already
    there, a download whose request is answered by an ERROR packet with code
    8 does not delete the file: it stops with an uncaught [KeyError],
    [os.remove] is never called, and the file is left behind empty, its old
    contents gone since the [open]. *)
Theorem get_error_code_8_leaves_emptied_file filename server_address fs old msg source :
  let '(t, fs', o) :=
    get_file filename server_address (<[filename := old]> fs)
             [Datagram (ERROR_packet 8 msg) source] in
  o = Uncaught (KeyError 8)
  /\ ~ In (OsRemove filename) t
  /\ fs' !! filename = Some [].
Proof.
  destruct (received_ERROR_packet 8 msg ltac:(lia)) as [Hop Hc].
  rewrite get_file_unfold. cbn [get_loop].
  rewrite get_iter_error by done. rewrite get_error_uncatalogued by (rewrite Hc; lia).
  rewrite Hc. cbn [get_fs]. split; [done|]. split.
  - cbn [In app]. intros Hin. repeat (destruct Hin as [Hin|Hin]; [discriminate|]). done.
  - apply lookup_insert_eq.
Qed.
(** ** A whole download *)

(** What a download reads off the socket while the blocks arrive in order:
    the datagrams of the blocks, each whole, and nothing after the short
    block. *)
Lemma get_loop_data_stream_receptions filename blocks : forall st last rest source,
  Forall (fun b : bytes => len b = 512) blocks ->
  len last < 512 ->
  0 <= expected_block_number st ->
  expected_block_number st + len blocks <= 32767 ->
  receptions
    (get_loop filename st
       (data_stream (expected_block_number st) (blocks ++ [last]) source ++ rest)).1.1
  = datagrams (data_stream (expected_block_number st) (blocks ++ [last]) source).
Proof.
  induction blocks as [|b blocks IH]; intros st last rest source Hfull Hlast Hpos Hmax.
  - change (len []) with 0 in Hmax. cbn [app data_stream get_loop].
    rewrite get_iter_expected_block by lia.
    destruct (Z.ltb_spec (len last) BLOCK_SIZE) as [_|Hge]; [|unfold BLOCK_SIZE in Hge; lia].
    reflexivity.
  - apply Forall_cons in Hfull as [Hb Hfull].
    assert (Hlen : len (b :: blocks) = len blocks + 1) by (unfold len; cbn [length]; lia).
    rewrite Hlen in Hmax.
    assert (Hb0 : 0 <= len blocks) by (unfold len; lia).
    cbn [app data_stream get_loop].
    rewrite get_iter_expected_block by (unfold len in *; lia).
    destruct (Z.ltb_spec (len b) BLOCK_SIZE) as [Hlt|_]; [unfold BLOCK_SIZE in Hlt; lia|].
    set (st' := GetState _ _).
    pose proof (IH st' last rest source Hfull Hlast) as Hrec.
    unfold st' in Hrec at 1 2 4 5. cbn [expected_block_number] in Hrec.
    destruct (get_loop filename st' _) as [[t2 st2] o2].
    cbn [fst] in *. unfold receptions, datagrams in *. cbn [omap list_omap app].
    f_equal. apply Hrec; lia.
Qed.

(** X6.  A whole download.  When the server sends blocks 1, 2, ... in order
    from one address, full 512-byte blocks followed by one shorter block (at
    most 32767 blocks in all), the call returns, the local file holds
    exactly the blocks concatenated, the blocks written are those blocks,
    the ACKs sent are numbered 1 to the number of blocks, and the datagrams
    read off the socket are exactly those of the blocks: whatever arrives
    after the short block is not read. *)
Theorem get_file_downloads filename server_address fs blocks last source rest :
  Forall (fun b : bytes => len b = 512) blocks ->
  len last < 512 ->
  len blocks + 1 <= 32767 ->
  let '(t, fs', o) :=
    get_file filename server_address fs (data_stream 1 (blocks ++ [last]) source ++ rest) in
  o = Returned
  /\ fs' = <[filename := concat blocks ++ last]> fs
  /\ acks_sent t = seqZ 1 (len blocks + 1)
  /\ file_writes t = blocks ++ [last]
  /\ receptions t = datagrams (data_stream 1 (blocks ++ [last]) source).
Proof.
  intros Hfull Hlast Hmax. rewrite get_file_unfold.
  destruct (get_loop_data_stream filename blocks (GetState 1 (open_wb filename fs))
              last rest source []) as (t & st1 & Hrun & Hfs & Hacks & Hw);
    try done; try (cbn [expected_block_number]; lia).
  { apply lookup_insert_eq. }
  pose proof (get_loop_data_stream_receptions filename blocks
                (GetState 1 (open_wb filename fs)) last rest source Hfull Hlast) as Hrec.
  cbn [expected_block_number get_fs app] in Hrun, Hfs, Hacks, Hrec.
  rewrite Hrun in Hrec |- *. cbn [fst] in Hrec. split; [done|]. split.
  { rewrite Hfs. unfold open_wb. by rewrite insert_insert_eq. }
  unfold acks_sent, file_writes, receptions in *.
  rewrite !omap_app, Hacks, Hw, Hrec by lia.
  split_and!; cbn; by rewrite app_nil_r.
Qed.

Lemma get_file_downloads_witness :
  let '(t, fs', o) :=
    get_file "f" example_server ∅
      (data_stream 1 ([full_block] ++ [[Byte.x41; Byte.x42]]) example_peer
         ++ [Datagram (DATA_packet 3 []) example_peer]) in
  o = Returned
  /\ fs' = <["f"%string := concat [full_block] ++ [Byte.x41; Byte.x42]]> ∅
  /\ acks_sent t = seqZ 1 (len [full_block] + 1)
  /\ file_writes t = [full_block] ++ [[Byte.x41; Byte.x42]]
  /\ receptions t
     = datagrams (data_stream 1 ([full_block] ++ [[Byte.x41; Byte.x42]]) example_peer).
Proof.
  apply (get_file_downloads "f" example_server ∅ [full_block]
           [Byte.x41; Byte.x42] example_peer
           [Datagram (DATA_packet 3 []) example_peer]).
  - repeat constructor.
  - vm_compute. reflexivity.
  - vm_compute. discriminate.
Defined.

(** ** How the script ends *)

(** X14.  How the script ends.  With a port that [sendto] accepts (0 to
    65535), at any point of a download that is still waiting for a reply:
    an ERROR reply with a catalogued code makes [get] remove the file,
    close the socket and end with status 0, like a successful transfer; a
    timeout makes it remove the file and exit with status 1 without closing
    the socket.  A [put] of a file that does not exist prints its message
    and exits with status 1 before anything is sent, whatever the port.
    With any other port the [sendto] of the request raises [OverflowError]:
    the script ends with status 1, nothing sent, no file opened or
    created, the socket not closed. *)
Theorem script_exit_status host filename port fs :
  (sendto_accepts (host, default DEFAULT_PORT port) = true ->
   forall events1 t1 st1,
     get_loop filename (GetState 1 (open_wb filename fs)) events1 = (t1, st1, Blocked) ->
     (forall code msg source rest,
        0 <= code <= 7 ->
        let '(t, fs', o, closed) :=
          main host op_get filename port fs
               (events1 ++ Datagram (ERROR_packet code msg) source :: rest) in
        exit_status o = Some 0 /\ closed = true /\ fs' !! filename = None)
     /\ (forall rest,
           let '(t, fs', o, closed) :=
             main host op_get filename port fs (events1 ++ Timeout :: rest) in
           exit_status o = Some 1 /\ closed = false /\ fs' !! filename = None))
  /\ (forall events,
        fs !! filename = None ->
        main host op_put filename port fs events
        = ([Print "Error: File does not exist."], fs, Exited 1, false))
  /\ (sendto_accepts (host, default DEFAULT_PORT port) = false ->
      forall events,
        main host op_get filename port fs events = ([], fs, Uncaught OverflowError, false)
        /\ exit_status (main host op_get filename port fs events).1.2 = Some 1
        /\ (is_Some (fs !! filename) ->
            main host op_put filename port fs events
            = ([], fs, Uncaught OverflowError, false))).
Proof.
  split_and!.
  - intros Hport events1 t1 st1 Hrun. split.
    + intros code msg source rest Hcode.
      destruct (received_ERROR_packet code msg ltac:(lia)) as [Hop Hc].
      destruct (ERROR_CODE_defined code Hcode) as [text Htext].
      unfold main. cbv zeta. rewrite Hport.
      rewrite get_file_unfold, (get_loop_app _ _ _ _ _ _ Hrun). cbn [get_loop].
      rewrite get_iter_error by done.
      rewrite (get_error_catalogued _ _ _ text) by (by rewrite Hc).
      cbn [get_fs exit_status]. split_and!; try done. apply lookup_delete_eq.
    + intros rest. unfold main. cbv zeta. rewrite Hport.
      rewrite get_file_unfold, (get_loop_app _ _ _ _ _ _ Hrun).
      cbn [get_loop get_iter get_fs exit_status]. split_and!; try done.
      apply lookup_delete_eq.
  - intros events Hfile. unfold main, put_file. cbv zeta. rewrite Hfile.
    rewrite bool_decide_eq_false_2 by (by intros [? ?]).
    by rewrite orb_true_r.
  - intros Hport events. unfold main. cbv zeta. rewrite Hport.
    split_and!; try done.
    intros Hfile. by rewrite bool_decide_eq_true_2.
Qed.

Lemma script_exit_status_witness :
  (let '(t, fs', o, closed) :=
     main "192.0.2.1" op_get "f" None {[ "f"%string := full_block ]}
          ([Datagram (DATA_packet 1 full_block) example_peer]
             ++ Datagram (ERROR_packet 1 "File not found") example_peer :: []) in
   exit_status o = Some 0 /\ closed = true /\ fs' !! "f"%string = None)
  /\ main "192.0.2.1" op_put "g" None {[ "f"%string := full_block ]} [Timeout]
     = ([Print "Error: File does not exist."], {[ "f"%string := full_block ]},
        Exited 1, false)
  /\ main "192.0.2.1" op_get "f" (Some 70000) {[ "f"%string := full_block ]} [Timeout]
     = ([], {[ "f"%string := full_block ]}, Uncaught OverflowError, false)
  /\ main "192.0.2.1" op_put "f" (Some 70000) {[ "f"%string := full_block ]} [Timeout]
     = ([], {[ "f"%string := full_block ]}, Uncaught OverflowError, false).
Proof.
  split_and!.
  - destruct (proj1 (script_exit_status "192.0.2.1" "f" None {[ "f"%string := full_block ]})
                eq_refl [Datagram (DATA_packet 1 full_block) example_peer]
                (get_loop "f" (GetState 1 (open_wb "f" {[ "f"%string := full_block ]}))
                   [Datagram (DATA_packet 1 full_block) example_peer]).1.1
                (get_loop "f" (GetState 1 (open_wb "f" {[ "f"%string := full_block ]}))
                   [Datagram (DATA_packet 1 full_block) example_peer]).1.2)
      as [Herr _]; [vm_compute; reflexivity|].
    apply (Herr 1 "File not found"%string example_peer []). lia.
  - apply (proj1 (proj2 (script_exit_status "192.0.2.1" "g" None
                           {[ "f"%string := full_block ]})) [Timeout]).
    vm_compute. reflexivity.
  - apply (proj2 (proj2 (script_exit_status "192.0.2.1" "f" (Some 70000)
                           {[ "f"%string := full_block ]})) eq_refl [Timeout]).
  - apply (proj2 (proj2 (script_exit_status "192.0.2.1" "f" (Some 70000)
                           {[ "f"%string := full_block ]})) eq_refl [Timeout]).
    vm_compute. by eexists.
Defined.
